(** * Nvidia stock price predictor: a shallow embedding

    Source: [Methods/nvidia_stock_price_predictor.py].

    The script threads one pandas frame through four stages (loader,
    moving average, linear-regression trend, chart).  The frame is mutated in
    place, so the stages are written in a small state-and-exception monad
    whose state holds that frame, the console, the file system and pyplot's
    current figure.

    Numbers.  pandas and scikit-learn compute in float64.  Where a float64
    result decides the shape of the output, the model is bit-exact: the size
    of the test slice, [ceil(0.2 * n)] inside [train_test_split], is
    computed on binary64 (module [Binary64]), and an integer column is
    converted to float64 with rounding ([float_of_int]).  The values of the
    derived cells (rolling means, fitted line, forecasts, mean squared
    error) come from library routines whose rounding is not in the source;
    the model computes them in exact rationals ([Q], with [None] for NaN),
    which stand for the float64 results.  The properties below therefore
    state which cells are defined and where values flow, and state a value
    only where the float64 computation is exact; [dyadic53] delimits the
    numbers a float64 cell can hold and serves to show that the exact values
    are, in general, not what the cells hold. *)

From Stdlib Require Import String ZArith QArith Lia Lqa Bool Arith List Sorted.
Import ListNotations.

Local Open Scope string_scope.
Local Open Scope list_scope.

(** ** Frames *)

(** A calendar day, as a day number. *)
Definition date := Z.

(** A pandas column has one dtype. *)
Inductive column : Type :=
| FloatCol (xs : list (option Q))   (* float64, None is NaN *)
| IntCol (xs : list Z)              (* int64 *)
| DateCol (xs : list date).         (* datetime64 *)

Definition col_len (c : column) : nat :=
  match c with
  | FloatCol xs => length xs
  | IntCol xs => length xs
  | DateCol xs => length xs
  end.

(** A frame: the row labels and the columns in their order. *)
Record DataFrame : Type := mkFrame {
  index : list date;
  columns : list (string * column)
}.

(** [len(data)] *)
Definition len (data : DataFrame) : nat := length (index data).

Fixpoint lookup_col (name : string) (cols : list (string * column)) : option column :=
  match cols with
  | [] => None
  | (k, c) :: rest => if String.eqb k name then Some c else lookup_col name rest
  end.

(** [data[name] = c] on the column list: an existing column of that name is
    replaced where it stands, a new one goes to the end. *)
Fixpoint assign_col (name : string) (c : column) (cols : list (string * column))
  : list (string * column) :=
  match cols with
  | [] => [(name, c)]
  | (k, c0) :: rest =>
      if String.eqb k name then (k, c) :: rest
      else (k, c0) :: assign_col name c rest
  end.

Definition get_column (name : string) (data : DataFrame) : option column :=
  lookup_col name (columns data).

Definition set_column (name : string) (c : column) (data : DataFrame) : DataFrame :=
  mkFrame (index data) (assign_col name c (columns data)).

Definition column_names (data : DataFrame) : list string := map fst (columns data).

(** Every column is as long as the index. *)
Definition frame_ok (data : DataFrame) : Prop :=
  Forall (fun kc => col_len (snd kc) = len data) (columns data).

(** ** Charts and the outside world *)

Record Line : Type := mkLine {
  xdata : column;
  ydata : column;
  line_label : string;
  line_color : string
}.

Record Figure : Type := mkFigure {
  figsize : Z * Z;
  lines : list Line;
  title : string;
  xlabel : string;
  ylabel : string;
  legend : bool;
  grid : bool
}.

Definition empty_figure (size : Z * Z) : Figure :=
  mkFigure size [] "" "" "" false false.

Inductive file : Type :=
| CsvTable (table : DataFrame)
| Image (chart : Figure).

Inductive message : Type :=
| HeadRows (rows : DataFrame)          (* print(..., stock_data.head()) *)
| MseLine (mse : Q).                   (* print(f"... Error: {mse}") *)

Inductive event : Type :=
| Saved (name : string) (chart : Figure)
| Shown (chart : Figure).

Record Env : Type := mkEnv {
  frame : DataFrame;                                  (* the frame object *)
  stdout : list message;
  fs : string -> option file;                         (* working directory *)
  gcf : Figure;                                       (* pyplot's current figure *)
  plt_log : list event;                               (* savefig / show, in order *)
  provider : string -> string -> string -> DataFrame  (* yf.download *)
}.

Inductive exn : Type :=
| KeyError (key : string)
| ValueError
| DataError.

Inductive outcome (A : Type) : Type :=
| Returned (a : A)
| Raised (e : exn).
Arguments Returned {A} a.
Arguments Raised {A} e.

(** ** The monad *)

Definition Py (A : Type) : Type := Env -> Env * outcome A.

Definition ret {A} (a : A) : Py A := fun s => (s, Returned a).

Definition bind {A B} (m : Py A) (k : A -> Py B) : Py B :=
  fun s =>
    match m s with
    | (s', Returned a) => k a s'
    | (s', Raised e) => (s', Raised e)
    end.

Definition raise {A} (e : exn) : Py A := fun s => (s, Raised e).

Notation "x <- m ;; k" := (bind m (fun x => k))
  (at level 61, m at next level, right associativity).
Notation "m ;;; k" := (bind m (fun _ => k))
  (at level 61, right associativity).

Definition get_frame : Py DataFrame := fun s => (s, Returned (frame s)).

Definition put_frame (d : DataFrame) : Py unit :=
  fun s => (mkEnv d (stdout s) (fs s) (gcf s) (plt_log s) (provider s), Returned tt).

(** [data[name]] *)
Definition getitem (name : string) : Py column :=
  d <- get_frame ;;
  match get_column name d with
  | Some c => ret c
  | None => raise (KeyError name)
  end.

(** [data[name] = c] *)
Definition setitem (name : string) (c : column) : Py unit :=
  d <- get_frame ;; put_frame (set_column name c d).

Definition print (m : message) : Py unit :=
  fun s => (mkEnv (frame s) (stdout s ++ [m]) (fs s) (gcf s) (plt_log s) (provider s),
            Returned tt).

Definition lift {A} (r : outcome A) : Py A := fun s => (s, r).

(** ** Binary64 *)

(** Where the source rounds, it rounds on doubles: [train_test_split]
    computes the size of the test slice as [ceil(test_size * n_samples)],
    and an integer column is converted to float64 before any arithmetic.
    Only finite non-negative doubles occur in the module; one is
    [mant * 2 ^ expo] with [mant] of at most 53 bits. *)
Module Binary64.
Local Open Scope Z_scope.

Record double : Type := mkDouble { mant : Z; expo : Z }.

Definition prec : Z := 53.

(** [m * 2 ^ e] with [0 <= m], rounded to the nearest double, ties to even. *)
Definition round (m e : Z) : double :=
  let bits := Z.log2 m + 1 in
  if bits <=? prec then mkDouble m e
  else
    let s := bits - prec in
    let q := m / 2 ^ s in
    let r := m mod 2 ^ s in
    let half := 2 ^ (s - 1) in
    let up := (half <? r) || ((r =? half) && Z.odd q) in
    mkDouble (if up then q + 1 else q) (e + s).

(** [float(n)] *)
Definition of_int (n : Z) : double := round n 0.

Definition mul (a b : double) : double :=
  round (mant a * mant b) (expo a + expo b).

(** [math.ceil] *)
Definition ceil (a : double) : Z :=
  if 0 <=? expo a then mant a * 2 ^ expo a
  else (mant a + 2 ^ (- expo a) - 1) / 2 ^ (- expo a).

(** The literal [0.2], that is 0x1.999999999999ap-3. *)
Definition test_size : double := mkDouble 3602879701896397 (-54).

End Binary64.

(** [int64] to [float64], to the nearest double, ties to even: an integer
    of at most 53 bits is kept as it is. *)
Definition float_of_int (z : Z) : Q :=
  let d := Binary64.of_int (Z.abs z) in
  inject_Z (Z.sgn z * (Binary64.mant d * 2 ^ Binary64.expo d))%Z.

(** The value of a timestamp at midnight of a day: nanoseconds since the
    epoch. *)
Definition timestamp_ns (d : date) : Z := (d * 86400000000000)%Z.

(** ** Rolling mean: [Series.rolling(window).mean()] *)

(** The cells a pandas aggregation sees in a column: integers are converted
    to float64, a datetime column is refused ([pandas.errors.DataError]). *)
Definition as_float (c : column) : outcome (list (option Q)) :=
  match c with
  | FloatCol xs => Returned xs
  | IntCol xs => Returned (map (fun z => Some (float_of_int z)) xs)
  | DateCol _ => Raised DataError
  end.

(** The cells scikit-learn sees in a column: its input validation converts
    integers and timestamps alike to float64. *)
Definition as_array (c : column) : outcome (list (option Q)) :=
  match c with
  | FloatCol xs => Returned xs
  | IntCol xs => Returned (map (fun z => Some (float_of_int z)) xs)
  | DateCol xs => Returned (map (fun d => Some (float_of_int (timestamp_ns d))) xs)
  end.

(** The window that ends at position [i]: positions [i + 1 - window] to [i],
    cut at the start of the series. *)
Definition window_at (window i : nat) (xs : list (option Q)) : list (option Q) :=
  let start := (i + 1 - window)%nat in
  firstn (i + 1 - start) (skipn start xs).

Definition observed (win : list (option Q)) : list Q :=
  flat_map (fun c => match c with Some q => [q] | None => [] end) win.

Definition Qsum (qs : list Q) : Q := fold_right Qplus 0%Q qs.

(** The mean of the observations of a window, NaN when there are fewer than
    [min_periods] of them (or none).  The mean is the exact one; pandas
    returns a float64 close to it. *)
Definition roll_mean (min_periods : nat) (win : list (option Q)) : option Q :=
  let obs := observed win in
  let nobs := length obs in
  if (min_periods <=? nobs)%nat && (0 <? nobs)%nat
  then Some (Qsum obs / inject_Z (Z.of_nat nobs))%Q
  else None.

(** [min_periods] is left at its default, the window size. *)
Definition rolling_mean (window : nat) (xs : list (option Q)) : list (option Q) :=
  map (fun i => roll_mean window (window_at window i xs)) (seq 0 (length xs)).

(** ** Stage 2: the moving average *)

Definition default_window : nat := 5.

Definition moving_average_prediction (window : nat) : Py DataFrame :=
  close <- getitem "Close" ;;
  xs <- lift (as_float close) ;;
  setitem "Moving_Avg" (FloatCol (rolling_mean window xs)) ;;;
  get_frame.

(** ** [train_test_split(X, y, test_size=0.2, shuffle=False)] *)

(** The sizes: [n_test = ceil(test_size * n_samples)] on doubles, and, no
    [train_size] being given, [n_train = n_samples - n_test].  An empty
    training set is an error, and so are arrays of different lengths.
    Without shuffling the training rows are the first [n_train] and the test
    rows the [n_test] that follow. *)
Definition n_test (n_samples : nat) : nat :=
  Z.to_nat (Binary64.ceil
              (Binary64.mul Binary64.test_size (Binary64.of_int (Z.of_nat n_samples)))).

Definition n_train (n_samples : nat) : nat := (n_samples - n_test n_samples)%nat.

Definition train_test_split {A B : Type} (X : list A) (y : list B)
  : outcome (list A * list A * list B * list B) :=
  let n_samples := length X in
  if negb (length y =? n_samples)%nat then Raised ValueError
  else if (n_train n_samples =? 0)%nat then Raised ValueError
  else
    let tr := n_train n_samples in
    let te := n_test n_samples in
    Returned (firstn tr X, firstn te (skipn tr X), firstn tr y, firstn te (skipn tr y)).

(** ** [LinearRegression] and [mean_squared_error] *)

(** Input validation: a NaN is refused. *)
Fixpoint finite (cells : list (option Q)) : outcome (list Q) :=
  match cells with
  | [] => Returned []
  | None :: _ => Raised ValueError
  | Some q :: rest =>
      match finite rest with
      | Returned qs => Returned (q :: qs)
      | Raised e => Raised e
      end
  end.

Definition Qmean (qs : list Q) : Q := (Qsum qs / inject_Z (Z.of_nat (length qs)))%Q.

Record LinearRegression : Type := mkModel { coef_ : Q; intercept_ : Q }.

(** Least squares on the centred data; when every abscissa is the same the
    minimum-norm solution has slope zero.  The solution is the exact one;
    scikit-learn returns float64 coefficients close to it, and predicts and
    scores in float64. *)
Definition least_squares (xs ys : list Q) : LinearRegression :=
  let xbar := Qmean xs in
  let ybar := Qmean ys in
  let sxx := Qsum (map (fun x => (x - xbar) * (x - xbar))%Q xs) in
  let sxy := Qsum (map (fun xy => (fst xy - xbar) * (snd xy - ybar))%Q (combine xs ys)) in
  let slope := if Qeq_bool sxx 0 then 0%Q else (sxy / sxx)%Q in
  mkModel slope (ybar - slope * xbar)%Q.

Definition fit (X y : list (option Q)) : outcome LinearRegression :=
  match finite X with
  | Raised e => Raised e
  | Returned xs =>
      match finite y with
      | Raised e => Raised e
      | Returned ys => Returned (least_squares xs ys)
      end
  end.

Definition predict_at (model : LinearRegression) (x : Q) : Q :=
  (intercept_ model + coef_ model * x)%Q.

Definition predict (model : LinearRegression) (X : list (option Q)) : outcome (list Q) :=
  match finite X with
  | Raised e => Raised e
  | Returned xs => Returned (map (predict_at model) xs)
  end.

Definition squared_errors (y_true y_pred : list Q) : list Q :=
  map (fun tp => (fst tp - snd tp) * (fst tp - snd tp))%Q (combine y_true y_pred).

Definition mean_squared_error (y_true : list (option Q)) (y_pred : list Q) : outcome Q :=
  match finite y_true with
  | Raised e => Raised e
  | Returned ts =>
      if negb (length ts =? length y_pred)%nat then Raised ValueError
      else Returned (Qmean (squared_errors ts y_pred))
  end.

(** ** [data.loc[labels, name] = values] *)

Fixpoint positions_from (k : nat) (label : date) (idx : list date) : list nat :=
  match idx with
  | [] => []
  | d :: rest =>
      if Z.eqb d label then k :: positions_from (S k) label rest
      else positions_from (S k) label rest
  end.

(** The rows a list of labels selects: for each label in turn, every row
    that carries it. *)
Definition indexer (labels idx : list date) : list nat :=
  flat_map (fun l => positions_from 0 l idx) labels.

Fixpoint set_nth {A : Type} (i : nat) (a : A) (l : list A) : list A :=
  match l, i with
  | [], _ => []
  | _ :: rest, O => a :: rest
  | x :: rest, S j => x :: set_nth j a rest
  end.

Definition scatter (rows : list nat) (values : list Q) (cells : list (option Q))
  : list (option Q) :=
  fold_left (fun acc rv => set_nth (fst rv) (Some (snd rv)) acc) (combine rows values) cells.

(** The selected rows receive the values in order; a selection whose length
    differs from that of the values is an error. *)
Definition loc_setitem (labels : list date) (name : string) (values : list Q) : Py unit :=
  d <- get_frame ;;
  col <- getitem name ;;
  cells <- lift (as_float col) ;;
  let rows := indexer labels (index d) in
  if negb (length rows =? length values)%nat then raise ValueError
  else setitem name (FloatCol (scatter rows values cells)).

(** ** Stage 3: the linear-regression trend *)

(** [np.arange(n)] *)
Definition arange (n : nat) : list Z := map Z.of_nat (seq 0 n).

Definition labelled : Type := list (date * option Q).

(** The first half of the stage: the time index, the feature and the target,
    and the split. *)
Definition split_records : Py (labelled * labelled * labelled * labelled) :=
  d <- get_frame ;;
  setitem "Days" (IntCol (arange (len d))) ;;;
  days <- getitem "Days" ;;
  xs <- lift (as_array days) ;;
  let X := combine (index d) xs in
  close <- getitem "Close" ;;
  ys <- lift (as_array close) ;;
  let y := combine (index d) ys in
  lift (train_test_split X y).

Definition linear_regression_prediction : Py DataFrame :=
  split <- split_records ;;
  let '(X_train, X_test, y_train, y_test) := split in
  model <- lift (fit (map snd X_train) (map snd y_train)) ;;
  y_pred <- lift (predict model (map snd X_test)) ;;
  mse <- lift (mean_squared_error (map snd y_test) y_pred) ;;
  print (MseLine mse) ;;;
  d <- get_frame ;;
  setitem "Linear_Regression_Pred" (FloatCol (repeat None (len d))) ;;;
  loc_setitem (map fst X_test) "Linear_Regression_Pred" y_pred ;;;
  get_frame.

(** ** Stage 4: the chart *)

Definition chart_file : string := "nvidia_stock_price_prediction.png".

Definition modify_gcf (f : Figure -> Figure) : Py unit :=
  fun s => (mkEnv (frame s) (stdout s) (fs s) (f (gcf s)) (plt_log s) (provider s),
            Returned tt).

(** [plt.figure(figsize=size)] *)
Definition plt_figure (size : Z * Z) : Py unit :=
  modify_gcf (fun _ => empty_figure size).

(** [plt.plot(x, y, label=l, color=c)] *)
Definition plt_plot (x y : column) (l c : string) : Py unit :=
  modify_gcf (fun g =>
    mkFigure (figsize g) (lines g ++ [mkLine x y l c]) (title g) (xlabel g) (ylabel g)
             (legend g) (grid g)).

Definition plt_title (t : string) : Py unit :=
  modify_gcf (fun g =>
    mkFigure (figsize g) (lines g) t (xlabel g) (ylabel g) (legend g) (grid g)).

Definition plt_xlabel (t : string) : Py unit :=
  modify_gcf (fun g =>
    mkFigure (figsize g) (lines g) (title g) t (ylabel g) (legend g) (grid g)).

Definition plt_ylabel (t : string) : Py unit :=
  modify_gcf (fun g =>
    mkFigure (figsize g) (lines g) (title g) (xlabel g) t (legend g) (grid g)).

Definition plt_legend : Py unit :=
  modify_gcf (fun g =>
    mkFigure (figsize g) (lines g) (title g) (xlabel g) (ylabel g) true (grid g)).

Definition plt_grid (b : bool) : Py unit :=
  modify_gcf (fun g =>
    mkFigure (figsize g) (lines g) (title g) (xlabel g) (ylabel g) (legend g) b).

Definition write_file (name : string) (f : file) (files : string -> option file)
  : string -> option file :=
  fun k => if String.eqb k name then Some f else files k.

(** [plt.savefig(name)] *)
Definition plt_savefig (name : string) : Py unit :=
  fun s => (mkEnv (frame s) (stdout s) (write_file name (Image (gcf s)) (fs s)) (gcf s)
                  (plt_log s ++ [Saved name (gcf s)]) (provider s),
            Returned tt).

(** [plt.show()] *)
Definition plt_show : Py unit :=
  fun s => (mkEnv (frame s) (stdout s) (fs s) (gcf s) (plt_log s ++ [Shown (gcf s)])
                  (provider s),
            Returned tt).

Definition visualize_predictions : Py unit :=
  plt_figure (14, 7)%Z ;;;
  x1 <- getitem "Date" ;;
  y1 <- getitem "Close" ;;
  plt_plot x1 y1 "Actual Prices" "blue" ;;;
  x2 <- getitem "Date" ;;
  y2 <- getitem "Moving_Avg" ;;
  plt_plot x2 y2 "Moving Average (window=5)" "green" ;;;
  x3 <- getitem "Date" ;;
  y3 <- getitem "Linear_Regression_Pred" ;;
  plt_plot x3 y3 "Linear Regression Prediction" "red" ;;;
  plt_title "Nvidia Stock Price Prediction" ;;;
  plt_xlabel "Date" ;;;
  plt_ylabel "Price (USD)" ;;;
  plt_legend ;;;
  plt_grid true ;;;
  plt_savefig chart_file ;;;
  plt_show.

(** ** Stage 1: the loader, and the script *)

Definition yf_download (ticker start_date end_date : string) : Py DataFrame :=
  fun s => (s, Returned (provider s ticker start_date end_date)).

Definition load_data (ticker start_date end_date : string) : Py DataFrame :=
  stock_data <- yf_download ticker start_date end_date ;;
  put_frame stock_data ;;;
  setitem "Date" (DateCol (index stock_data)) ;;;
  get_frame.

Definition default_ticker : string := "NVDA".
Definition default_start_date : string := "2022-01-01".
Definition default_end_date : string := "2023-01-01".

Definition col_head (k : nat) (c : column) : column :=
  match c with
  | FloatCol xs => FloatCol (firstn k xs)
  | IntCol xs => IntCol (firstn k xs)
  | DateCol xs => DateCol (firstn k xs)
  end.

(** [data.head()] *)
Definition head (data : DataFrame) : DataFrame :=
  mkFrame (firstn 5 (index data))
          (map (fun kc => (fst kc, col_head 5 (snd kc))) (columns data)).

Definition main : Py unit :=
  load_data default_ticker default_start_date default_end_date ;;;
  moving_average_prediction default_window ;;;
  linear_regression_prediction ;;;
  visualize_predictions.

(** The module body: the fetch and print that run on import, then [main]. *)
Definition script : Py unit :=
  stock_data <- load_data default_ticker default_start_date default_end_date ;;
  print (HeadRows (head stock_data)) ;;;
  main.

(** ** The data model *)

(** A price series with the given closing prices: ascending unique dates,
    every close present, every column as long as the index. *)
Definition price_series (d : DataFrame) (closes : list Q) : Prop :=
  StronglySorted Z.lt (index d)
  /\ get_column "Close" d = Some (FloatCol (map Some closes))
  /\ frame_ok d.

Definition with_frame (d : DataFrame) (s : Env) : Env :=
  mkEnv d (stdout s) (fs s) (gcf s) (plt_log s) (provider s).

Definition with_fs (files : string -> option file) (s : Env) : Env :=
  mkEnv (frame s) (stdout s) files (gcf s) (plt_log s) (provider s).


(** ** What a float64 cell can hold *)



(** ** What the trend stage is expected to compute *)

(** The lengths a double holds exactly, so that [float(n)] is [n]. *)
Definition exact_len (n : nat) : Prop := (Z.of_nat n < 2 ^ 53)%Z.

(** The time indices as numbers, and as the cells of the feature column. *)
Definition days_q (n : nat) : list Q := map inject_Z (arange n).

Definition day_cells (n : nat) : list (option Q) :=
  map (fun z => Some (float_of_int z)) (arange n).

(** The line fitted on the leading slice of the closes. *)
Definition trend_model (closes : list Q) : LinearRegression :=
  let n := length closes in
  least_squares (firstn (n_train n) (days_q n)) (firstn (n_train n) closes).

(** Its values on the trailing slice. *)
Definition trend_forecast (closes : list Q) : list Q :=
  let n := length closes in
  map (predict_at (trend_model closes)) (skipn (n_train n) (days_q n)).

Definition trend_mse (closes : list Q) : Q :=
  Qmean (squared_errors (skipn (n_train (length closes)) closes) (trend_forecast closes)).



(** The columns a stage derives. *)
Definition moving_average_columns : list string := ["Moving_Avg"].
Definition trend_columns : list string := ["Days"; "Linear_Regression_Pred"].

(** [d] is [d0] with nothing touched but the columns named in [derived]:
    same rows in the same order, every other column as it was and where it
    was, and, when [d0] has no column of a derived name, the columns of [d0]
    followed by derived ones. *)
Definition extends (derived : list string) (d0 d : DataFrame) : Prop :=
  index d = index d0
  /\ (forall name, ~ In name derived -> get_column name d = get_column name d0)
  /\ (exists extra, column_names d = column_names d0 ++ extra)
  /\ ((forall name, In name derived -> get_column name d0 = None) ->
      exists extra, columns d = columns d0 ++ extra
                    /\ Forall (fun kc => In (fst kc) derived) extra).

(** A property of the frame that an action keeps. *)
Definition preserves {A : Type} (P : DataFrame -> Prop) (m : Py A) : Prop :=
  forall s, P (frame s) -> P (frame (fst (m s))).

(** The chart drawn from four columns. *)
Definition chart_of (dates close moving_avg pred : column) : Figure :=
  mkFigure (14, 7)%Z
           [mkLine dates close "Actual Prices" "blue";
            mkLine dates moving_avg "Moving Average (window=5)" "green";
            mkLine dates pred "Linear Regression Prediction" "red"]
           "Nvidia Stock Price Prediction" "Date" "Price (USD)" true true.

(** A loader is backed by the file at [path] when, that file holding a saved
    table, the loader returns the table. *)
Definition file_backed (loader : Py DataFrame) (path : string) : Prop :=
  forall s table, fs s path = Some (CsvTable table) -> snd (loader s) = Returned table.





(** ** A sample series *)

Definition sample_closes : list Q := map inject_Z [1; 2; 3; 4; 5; 6; 7; 8; 9; 10]%Z.

Definition sample_frame : DataFrame :=
  mkFrame [19000; 19001; 19002; 19003; 19004; 19007; 19008; 19009; 19010; 19011]%Z
          [("Open", FloatCol (map Some sample_closes));
           ("Close", FloatCol (map Some sample_closes));
           ("Volume", IntCol [10; 20; 30; 40; 50; 60; 70; 80; 90; 100]%Z)].

Definition sample_env : Env :=
  mkEnv sample_frame [] (fun _ => None) (empty_figure (0, 0)%Z) []
        (fun _ _ _ => sample_frame).

(** The sample after the loader and the two analytic stages. *)
Definition pipeline_env : Env :=
  fst (linear_regression_prediction
         (fst (moving_average_prediction default_window
                 (fst (load_data default_ticker default_start_date default_end_date
                         sample_env))))).

Definition column_or_empty (name : string) (d : DataFrame) : column :=
  match get_column name d with
  | Some c => c
  | None => FloatCol []
  end.

(** A working directory in which every path holds a saved, empty table. *)
Definition saved_table : DataFrame := mkFrame [] [].

Definition csv_env : Env :=
  mkEnv saved_table [] (fun _ => Some (CsvTable saved_table)) (empty_figure (0, 0)%Z) []
        (fun _ _ _ => sample_frame).

(** ** Further sample data *)

(** A series with a missing close in the middle. *)
Definition gap_cells : list (option Q) :=
  [Some 1; Some 2; None; Some 4; Some 5; Some 6]%Q.

Definition gap_frame : DataFrame :=
  mkFrame [19000; 19001; 19002; 19003; 19004; 19007]%Z
          [("Close", FloatCol gap_cells)].

Definition gap_env : Env := with_frame gap_frame sample_env.

(** A frame with rows but no [Close] column. *)
Definition closeless_frame : DataFrame :=
  mkFrame [19000; 19001]%Z [("Open", FloatCol [Some 1; Some 2]%Q)].

Definition closeless_env : Env := with_frame closeless_frame sample_env.

(** A series of one record. *)
Definition single_frame : DataFrame :=
  mkFrame [19000]%Z [("Close", FloatCol [Some 7]%Q)].

Definition single_env : Env := with_frame single_frame sample_env.

(** ** What the pipeline is expected to leave behind *)




(** The provider's answer to the default request. *)
Definition fetched (s : Env) : DataFrame :=
  provider s default_ticker default_start_date default_end_date.

(** A provider that answers with a single record. *)
Definition short_env : Env :=
  mkEnv sample_frame [] (fun _ => None) (empty_figure (0, 0)%Z) []
        (fun _ _ _ => single_frame).




(** Two records. *)
Definition pair_frame (c0 c1 : Q) : DataFrame :=
  mkFrame [19000; 19001]%Z [("Close", FloatCol [Some c0; Some c1])].

Definition pair_env : Env := with_frame (pair_frame 4 9) sample_env.

(** ** Series on which exact values are not float64 *)










(** The sample after a moving average over three records. *)
Definition averaged_env : Env := fst (moving_average_prediction 3 sample_env).

(** * Properties *)

(** ** Columns of a frame *)

Lemma lookup_assign_same (name : string) (c : column) (cols : list (string * column)) :
  lookup_col name (assign_col name c cols) = Some c.
Proof.
  induction cols as [| [k c0] rest IH]; simpl.
  - now rewrite String.eqb_refl.
  - destruct (String.eqb k name) eqn:E; simpl; rewrite E; auto.
Qed.

Lemma lookup_assign_other (name other : string) (c : column) (cols : list (string * column)) :
  other <> name ->
  lookup_col other (assign_col name c cols) = lookup_col other cols.
Proof.
  intros Hne. induction cols as [| [k c0] rest IH]; simpl.
  - destruct (String.eqb name other) eqn:E; auto.
    apply String.eqb_eq in E. congruence.
  - destruct (String.eqb k name) eqn:E; simpl.
    + apply String.eqb_eq in E. subst k.
      destruct (String.eqb name other) eqn:E'; auto.
      apply String.eqb_eq in E'. congruence.
    + now rewrite IH.
Qed.

Lemma lookup_none_not_in (name : string) (cols : list (string * column)) :
  lookup_col name cols = None <-> ~ In name (map fst cols).
Proof.
  induction cols as [| [k c0] rest IH]; simpl.
  - tauto.
  - destruct (String.eqb k name) eqn:E.
    + apply String.eqb_eq in E. split; [discriminate | tauto].
    + apply String.eqb_neq in E. tauto.
Qed.

Lemma assign_fresh (name : string) (c : column) (cols : list (string * column)) :
  lookup_col name cols = None ->
  assign_col name c cols = cols ++ [(name, c)].
Proof.
  induction cols as [| [k c0] rest IH]; simpl; auto.
  destruct (String.eqb k name); [discriminate |].
  intros H. now rewrite IH.
Qed.

Lemma get_set_same (name : string) (c : column) (d : DataFrame) :
  get_column name (set_column name c d) = Some c.
Proof. apply lookup_assign_same. Qed.

Lemma get_set_other (name other : string) (c : column) (d : DataFrame) :
  other <> name ->
  get_column other (set_column name c d) = get_column other d.
Proof. apply lookup_assign_other. Qed.

(** ** Running the monad *)

Lemma bind_returned {A B : Type} (m : Py A) (k : A -> Py B) (s s' : Env) (a : A) :
  m s = (s', Returned a) -> bind m k s = k a s'.
Proof. intros H. unfold bind. now rewrite H. Qed.

Lemma bind_raised {A B : Type} (m : Py A) (k : A -> Py B) (s s' : Env) (e : exn) :
  m s = (s', Raised e) -> bind m k s = (s', Raised e).
Proof. intros H. unfold bind. now rewrite H. Qed.

Lemma getitem_some (name : string) (c : column) (s : Env) :
  get_column name (frame s) = Some c -> getitem name s = (s, Returned c).
Proof. intros H. unfold getitem, bind, get_frame. now rewrite H. Qed.

Lemma getitem_none (name : string) (s : Env) :
  get_column name (frame s) = None -> getitem name s = (s, Raised (KeyError name)).
Proof. intros H. unfold getitem, bind, get_frame. now rewrite H. Qed.

Lemma setitem_run (name : string) (c : column) (s : Env) :
  setitem name c s = (with_frame (set_column name c (frame s)) s, Returned tt).
Proof. reflexivity. Qed.

Lemma get_frame_run (s : Env) : get_frame s = (s, Returned (frame s)).
Proof. reflexivity. Qed.

Lemma lift_run {A : Type} (r : outcome A) (s : Env) : lift r s = (s, r).
Proof. reflexivity. Qed.

(** One step of a run: the first action of a [bind] returns. *)
Ltac run_with H :=
  rewrite (bind_returned _ _ _ _ _ H); cbv beta; cbn [as_float as_array].

(** Facts about a concrete frame, by computation. *)
Ltac sorted_by_computation :=
  simpl; repeat (constructor; [| repeat (constructor; try reflexivity)]); constructor.

Ltac series_by_computation :=
  split; [sorted_by_computation
         | split; [reflexivity | unfold frame_ok; simpl; repeat constructor]].

(** ** Numbers that are not float64 *)








(** ** Rolling windows *)

Lemma observed_all (qs : list Q) : observed (map Some qs) = qs.
Proof. induction qs; simpl; congruence. Qed.

Lemma window_at_all (w i : nat) (qs : list Q) :
  window_at w i (map Some qs)
  = map Some (firstn (i + 1 - (i + 1 - w)) (skipn (i + 1 - w) qs)).
Proof. unfold window_at. now rewrite skipn_map, firstn_map. Qed.


Lemma roll_mean_full (w i : nat) (qs : list Q) :
  (1 <= w)%nat -> (w <= i + 1)%nat -> (i < length qs)%nat ->
  roll_mean w (window_at w i (map Some qs))
  = Some (Qmean (firstn w (skipn (i + 1 - w) qs))).
Proof.
  intros Hw Hi Hn. rewrite window_at_all. unfold roll_mean, Qmean.
  rewrite observed_all.
  replace (i + 1 - (i + 1 - w))%nat with w by lia.
  set (win := firstn _ _).
  assert (Hlen : length win = w).
  { subst win. rewrite length_firstn, length_skipn. lia. }
  rewrite Hlen.
  destruct (Nat.leb_spec w w); [| lia].
  destruct (Nat.ltb_spec 0 w); [reflexivity | lia].
Qed.

Lemma map_const_repeat {A B : Type} (f : A -> B) (b : B) (l : list A) :
  (forall a, In a l -> f a = b) -> map f l = repeat b (length l).
Proof.
  induction l as [| a l IH]; simpl; intros H; auto.
  rewrite (H a) by auto. f_equal. apply IH. auto.
Qed.





(** ** The size of the test slice *)

Module Binary64Facts.
Import Binary64.
Local Open Scope Z_scope.

Lemma round_exact (m e : Z) : 0 <= m < 2 ^ 53 -> round m e = mkDouble m e.
Proof.
  intros Hm. unfold round, prec.
  assert (Hb : Z.log2 m + 1 <= 53).
  { destruct (Z.eq_dec m 0) as [-> | Hne]; [simpl; lia |].
    assert (Z.log2 m < 53) by (apply Z.log2_lt_pow2; lia). lia. }
  destruct (Z.leb_spec (Z.log2 m + 1) 53); [reflexivity | lia].
Qed.

(** Above 53 bits the low [s] bits are dropped, and the result moves by at
    most half a unit in the last place. *)
Lemma round_inexact (m e : Z) :
  2 ^ 53 <= m ->
  let s := Z.log2 m - 52 in
  1 <= s /\ 2 ^ (s + 52) <= m < 2 ^ (s + 53)
  /\ ((round m e = mkDouble (m / 2 ^ s) (e + s) /\ 2 * (m mod 2 ^ s) <= 2 ^ s)
      \/ (round m e = mkDouble (m / 2 ^ s + 1) (e + s) /\ 2 ^ s <= 2 * (m mod 2 ^ s))).
Proof.
  intros Hm s.
  assert (Hpos : 0 < m) by (assert (0 < 2 ^ 53) by (apply Z.pow_pos_nonneg; lia); lia).
  assert (Hlog : 53 <= Z.log2 m) by (apply Z.log2_le_pow2; lia).
  pose proof (Z.log2_spec m Hpos) as Hspec.
  split; [subst s; lia |].
  split.
  { subst s. replace (Z.log2 m - 52 + 52) with (Z.log2 m) by lia.
    replace (Z.log2 m - 52 + 53) with (Z.succ (Z.log2 m)) by lia. exact Hspec. }
  unfold round, prec.
  destruct (Z.leb_spec (Z.log2 m + 1) 53); [lia |].
  replace (Z.log2 m + 1 - 53) with s by (subst s; lia).
  assert (Hhalf : 2 ^ s = 2 * 2 ^ (s - 1)).
  { replace s with (Z.succ (s - 1)) at 1 by lia. apply Z.pow_succ_r. subst s; lia. }
  destruct (Z.ltb_spec (2 ^ (s - 1)) (m mod 2 ^ s)); cbn [orb andb].
  - right. split; [reflexivity | lia].
  - destruct (Z.eqb_spec (m mod 2 ^ s) (2 ^ (s - 1))); cbn [orb andb].
    + destruct (Z.odd (m / 2 ^ s)).
      * right. split; [reflexivity | lia].
      * left. split; [reflexivity | lia].
    + left. split; [reflexivity | lia].
Qed.

Lemma ceil_div_unique (a u k : Z) :
  0 < u -> (k - 1) * u < a <= k * u -> (a + u - 1) / u = k.
Proof.
  intros Hu Ha. symmetry. apply Z.div_unique with (r := a + u - 1 - u * k); lia.
Qed.

(** On the integers a double holds exactly, [ceil(0.2 * n)] is the ceiling
    of [n / 5]: the excess of the literal over one fifth is too small to
    push a product over the next integer. *)
Lemma ceil_fifth (n : Z) :
  0 <= n < 2 ^ 53 ->
  ceil (mul test_size (of_int n)) = (n + 4) / 5.
Proof.
  intros Hn.
  assert (H52 : 2 ^ 52 = 4503599627370496) by reflexivity.
  assert (H53 : 2 ^ 53 = 9007199254740992) by reflexivity.
  assert (H54 : 2 ^ 54 = 18014398509481984) by reflexivity.
  unfold of_int. rewrite round_exact by exact Hn.
  unfold mul. cbn [mant expo test_size].
  set (P := 3602879701896397 * n).
  assert (Hk : n + 4 = 5 * ((n + 4) / 5) + (n + 4) mod 5) by (apply Z.div_mod; lia).
  assert (Hj : 0 <= (n + 4) mod 5 < 5) by (apply Z.mod_pos_bound; lia).
  set (k := (n + 4) / 5) in *. set (j := (n + 4) mod 5) in *.
  destruct (Z_lt_le_dec P (2 ^ 53)) as [Hsmall | Hbig].
  - rewrite round_exact by (subst P; lia).
    unfold ceil. cbn [mant expo]. change (0 <=? (-54 + 0)) with false. cbv iota.
    change (2 ^ (- (-54 + 0))) with (2 ^ 54). rewrite H54.
    apply ceil_div_unique; subst P; lia.
  - destruct (round_inexact P (-54 + 0) Hbig) as (Hs & Hrange & Hround).
    set (s := Z.log2 P - 52) in *.
    assert (Hs52 : s <= 52).
    { assert (s + 52 < 105); [| lia].
      apply (Z.pow_lt_mono_r_iff 2); [lia | lia |].
      assert (2 ^ 105 = 2 ^ 53 * 2 ^ 52) by reflexivity. subst P. lia. }
    set (T := 2 ^ s) in *. set (U := 2 ^ (54 - s)).
    assert (HT : 0 < T) by (apply Z.pow_pos_nonneg; lia).
    assert (HU : 0 < U) by (apply Z.pow_pos_nonneg; lia).
    assert (HTU : T * U = 2 ^ 54).
    { subst T U. rewrite <- Z.pow_add_r by lia. f_equal. lia. }
    assert (HT52 : T <= 2 ^ 52) by (apply Z.pow_le_mono_r; lia).
    assert (Hlo : T * 2 ^ 52 <= P) by (subst T; rewrite <- Z.pow_add_r by lia; tauto).
    assert (Hhi : P < T * 2 ^ 53) by (subst T; rewrite <- Z.pow_add_r by lia; tauto).
    assert (Hdm : P = T * (P / T) + P mod T) by (apply Z.div_mod; lia).
    pose proof (Z.mod_pos_bound P T HT) as Hr.
    set (q := P / T) in *. set (r := P mod T) in *.
    assert (Hgoal : forall q', (k - 1) * U < q' <= k * U ->
              ceil (mkDouble q' (-54 + 0 + s)) = k).
    { intros q' Hq'. unfold ceil. cbn [mant expo].
      destruct (Z.leb_spec 0 (-54 + 0 + s)); [lia |].
      replace (- (-54 + 0 + s)) with (54 - s) by lia. fold U.
      apply ceil_div_unique; assumption. }
    assert (H5P : 5 * P = (2 ^ 54 + 1) * n) by (subst P; rewrite H54; lia).
    assert (HkU : T * (k * U) = k * 2 ^ 54) by (rewrite <- HTU; ring).
    assert (HkU' : T * ((k - 1) * U) = (k - 1) * 2 ^ 54) by (rewrite <- HTU; ring).
    rewrite H54 in *. rewrite H53 in *. rewrite H52 in *.
    destruct (Z.eq_dec j 4) as [Hj4 | Hj4].
    + (* n = 5 k: the product is k + k / 2^54, and rounds to k *)
      assert (Hq : q = k * U).
      { subst q. symmetry. apply Z.div_unique with (r := k); lia. }
      destruct Hround as [[-> Hdown] | [-> Hup]]; apply Hgoal; fold q; nia.
    + (* otherwise the product lies strictly between k - 1 and k *)
      assert (Hlt : T * q < T * (k * U)) by lia.
      apply Z.mul_lt_mono_pos_l in Hlt; [| exact HT].
      destruct Hround as [[-> Hdown] | [-> Hup]]; apply Hgoal; fold q.
      * assert (Hgt : T * ((k - 1) * U) < T * q) by lia.
        apply Z.mul_lt_mono_pos_l in Hgt; [| exact HT]. lia.
      * assert (Hgt : T * ((k - 1) * U) < T * (q + 1)) by lia.
        apply Z.mul_lt_mono_pos_l in Hgt; [| exact HT]. lia.
Qed.

End Binary64Facts.

(** Converting an integer of at most 53 bits to float64 keeps it. *)
Lemma float_of_int_exact (z : Z) : (Z.abs z < 2 ^ 53)%Z -> float_of_int z = inject_Z z.
Proof.
  intros Hz. unfold float_of_int, Binary64.of_int.
  rewrite Binary64Facts.round_exact by lia.
  cbn [Binary64.mant Binary64.expo]. f_equal.
  rewrite Z.pow_0_r, Z.mul_1_r. destruct z; reflexivity.
Qed.

Lemma n_test_ceil (n : nat) : exact_len n -> n_test n = ((n + 4) / 5)%nat.
Proof.
  intros Hn. unfold n_test. rewrite Binary64Facts.ceil_fifth by (unfold exact_len in Hn; lia).
  rewrite <- (Nat2Z.id ((n + 4) / 5)). f_equal.
  rewrite Nat2Z.inj_div, Nat2Z.inj_add. reflexivity.
Qed.

Lemma n_test_bounds (n : nat) :
  exact_len n -> (5 * (n_test n) < n + 5 /\ n <= 5 * n_test n)%nat.
Proof.
  intros Hn. rewrite n_test_ceil by exact Hn.
  pose proof (Nat.div_mod_eq (n + 4) 5) as Hd.
  pose proof (Nat.mod_upper_bound (n + 4) 5) as Hm.
  lia.
Qed.

Lemma n_train_pos (n : nat) : exact_len n -> (2 <= n)%nat -> (0 < n_train n)%nat.
Proof.
  intros Hn H2. unfold n_train. pose proof (n_test_bounds n Hn). lia.
Qed.

Lemma n_train_test (n : nat) : exact_len n -> (n_train n + n_test n = n)%nat.
Proof.
  intros Hn. unfold n_train. pose proof (n_test_bounds n Hn). lia.
Qed.

Lemma train_test_split_ok {A B : Type} (X : list A) (y : list B) :
  length y = length X -> exact_len (length X) -> (2 <= length X)%nat ->
  train_test_split X y
  = Returned (firstn (n_train (length X)) X, skipn (n_train (length X)) X,
              firstn (n_train (length X)) y, skipn (n_train (length X)) y).
Proof.
  intros Hy Hn H2. unfold train_test_split.
  rewrite Hy, Nat.eqb_refl. cbn [negb].
  pose proof (n_train_pos _ Hn H2) as Hpos.
  pose proof (n_train_test _ Hn) as Hsum.
  destruct (Nat.eqb_spec (n_train (length X)) 0); [lia |].
  rewrite (firstn_all2 (n := n_test (length X)) (skipn (n_train (length X)) X))
    by (rewrite length_skipn; lia).
  rewrite (firstn_all2 (n := n_test (length X)) (skipn (n_train (length X)) y))
    by (rewrite length_skipn; lia).
  reflexivity.
Qed.

(** ** The split inside the trend stage *)

Lemma lookup_col_in (name : string) (c : column) (cols : list (string * column)) :
  lookup_col name cols = Some c -> In (name, c) cols.
Proof.
  induction cols as [| [k c0] rest IH]; simpl; [discriminate |].
  destruct (String.eqb k name) eqn:E.
  - apply String.eqb_eq in E. intros [= ->]. left. congruence.
  - intros H. right. auto.
Qed.

Lemma frame_ok_len (d : DataFrame) (name : string) (c : column) :
  frame_ok d -> get_column name d = Some c -> col_len c = len d.
Proof.
  intros Hok Hc. apply lookup_col_in in Hc.
  unfold frame_ok in Hok. rewrite Forall_forall in Hok.
  exact (Hok _ Hc).
Qed.

Lemma price_series_len (d : DataFrame) (closes : list Q) :
  price_series d closes -> len d = length closes.
Proof.
  intros (_ & Hc & Hok). pose proof (frame_ok_len _ _ _ Hok Hc) as H.
  simpl in H. rewrite length_map in H. auto.
Qed.

Lemma length_arange (n : nat) : length (arange n) = n.
Proof. unfold arange. now rewrite length_map, length_seq. Qed.

Lemma split_records_run (s : Env) (closes : list Q) :
  price_series (frame s) closes ->
  (2 <= length closes)%nat -> exact_len (length closes) ->
  let n := length closes in
  let X := combine (index (frame s)) (day_cells n) in
  let y := combine (index (frame s)) (map Some closes) in
  split_records s
  = (with_frame (set_column "Days" (IntCol (arange n)) (frame s)) s,
     Returned (firstn (n_train n) X, skipn (n_train n) X,
               firstn (n_train n) y, skipn (n_train n) y)).
Proof.
  intros Hps H2 Hex n X y.
  pose proof (price_series_len _ _ Hps) as Hlen.
  destruct Hps as (_ & Hclose & _).
  unfold split_records.
  run_with (get_frame_run s).
  run_with (setitem_run "Days" (IntCol (arange (len (frame s)))) s).
  set (s1 := with_frame _ s).
  assert (Hdays : get_column "Days" (frame s1) = Some (IntCol (arange n))).
  { subst s1. cbn [frame with_frame]. rewrite Hlen. apply get_set_same. }
  run_with (getitem_some _ _ _ Hdays).
  run_with (lift_run (Returned (day_cells n)) s1).
  assert (Hclose1 : get_column "Close" (frame s1) = Some (FloatCol (map Some closes))).
  { subst s1. cbn [frame with_frame]. rewrite get_set_other by discriminate. exact Hclose. }
  run_with (getitem_some _ _ _ Hclose1).
  run_with (lift_run (Returned (map Some closes)) s1).
  rewrite lift_run. fold X y.
  assert (HX : length X = n).
  { subst X. unfold day_cells, len in *.
    rewrite length_combine, length_map, length_arange. lia. }
  assert (Hy : length y = n).
  { subst y. unfold len in *. rewrite length_combine, length_map. lia. }
  rewrite train_test_split_ok; rewrite ?HX; auto.
  subst s1. rewrite Hlen. reflexivity.
Qed.

Lemma sorted_app_lt (l1 l2 : list Z) :
  StronglySorted Z.lt (l1 ++ l2) ->
  forall a b, In a l1 -> In b l2 -> (a < b)%Z.
Proof.
  induction l1 as [| x l1 IH]; simpl; intros Hs a b Ha Hb; [contradiction |].
  apply StronglySorted_inv in Hs. destruct Hs as [Hs Hall].
  destruct Ha as [-> | Ha].
  - rewrite Forall_forall in Hall. apply Hall. apply in_or_app. now right.
  - eapply IH; eauto.
Qed.

Lemma map_fst_combine {A B : Type} (l : list A) (l' : list B) :
  length l = length l' -> map fst (combine l l') = l.
Proof.
  revert l'. induction l as [| a l IH]; intros [| b l']; simpl; intros H;
    try discriminate; auto.
  f_equal. apply IH. lia.
Qed.

Lemma map_snd_combine {A B : Type} (l : list A) (l' : list B) :
  length l = length l' -> map snd (combine l l') = l'.
Proof.
  revert l'. induction l as [| a l IH]; intros [| b l']; simpl; intros H;
    try discriminate; auto.
  f_equal. apply IH. lia.
Qed.

Section Split.

Variables (s : Env) (closes : list Q).
Hypothesis Hps : price_series (frame s) closes.
Hypothesis H2 : (2 <= length closes)%nat.
Hypothesis Hex : exact_len (length closes).

Let n := length closes.
Let dates := index (frame s).

Lemma split_dates_len : length dates = n.
Proof. apply (price_series_len _ _ Hps). Qed.

Lemma split_X_dates (k : nat) :
  map fst (firstn k (combine dates (day_cells n))) = firstn k dates
  /\ map fst (skipn k (combine dates (day_cells n))) = skipn k dates.
Proof.
  rewrite <- firstn_map, <- skipn_map, map_fst_combine; auto.
  unfold day_cells. rewrite length_map, length_arange. apply split_dates_len.
Qed.

Lemma split_X_days (k : nat) :
  map snd (firstn k (combine dates (day_cells n))) = firstn k (day_cells n)
  /\ map snd (skipn k (combine dates (day_cells n))) = skipn k (day_cells n).
Proof.
  rewrite <- firstn_map, <- skipn_map, map_snd_combine; auto.
  unfold day_cells. rewrite length_map, length_arange. apply split_dates_len.
Qed.

Lemma split_y_closes (k : nat) :
  map snd (firstn k (combine dates (map Some closes))) = map Some (firstn k closes)
  /\ map snd (skipn k (combine dates (map Some closes))) = map Some (skipn k closes).
Proof.
  rewrite <- firstn_map, <- skipn_map, map_snd_combine, firstn_map, skipn_map; auto.
  rewrite length_map. apply split_dates_len.
Qed.

Lemma split_y_dates (k : nat) :
  map fst (firstn k (combine dates (map Some closes))) = firstn k dates
  /\ map fst (skipn k (combine dates (map Some closes))) = skipn k dates.
Proof.
  rewrite <- firstn_map, <- skipn_map, map_fst_combine; auto.
  rewrite length_map. apply split_dates_len.
Qed.

End Split.

(** C2. The trend stage splits a series of at least two records
    chronologically: the training slice is the leading part of the records
    and the evaluation slice the trailing part, in their original order, the
    training slice holding the first 80% (rounded down) and every evaluation
    date being later than every training date; ten records give positions
    0-7 and 8-9. *)
Theorem split_is_chronological (s : Env) (closes : list Q) :
  price_series (frame s) closes ->
  (2 <= length closes)%nat -> exact_len (length closes) ->
  exists X_train X_test y_train y_test,
    snd (split_records s) = Returned (X_train, X_test, y_train, y_test)
    /\ X_train ++ X_test = combine (index (frame s)) (day_cells (length closes))
    /\ y_train ++ y_test = combine (index (frame s)) (map Some closes)
    /\ map fst X_train = firstn (length X_train) (index (frame s))
    /\ map fst X_test = skipn (length X_train) (index (frame s))
    /\ map snd y_train = map Some (firstn (length X_train) closes)
    /\ map snd y_test = map Some (skipn (length X_train) closes)
    /\ (5 * length X_train <= 4 * length closes < 5 * length X_train + 5)%nat
    /\ (length X_train + length X_test = length closes)%nat
    /\ (forall a b, In a (map fst X_train) -> In b (map fst X_test) -> (a < b)%Z)
    /\ (length closes = 10%nat ->
        map snd X_train = day_cells 8 /\ map snd X_test = skipn 8 (day_cells 10)).
Proof.
  intros Hps H2 Hex.
  pose proof (split_records_run s closes Hps H2 Hex) as Hrun. cbv zeta in Hrun.
  pose proof (split_dates_len s closes Hps) as Hdates.
  pose proof (n_test_bounds _ Hex) as Hb.
  pose proof (n_train_test _ Hex) as Hsum.
  set (n := length closes) in *.
  set (X := combine (index (frame s)) (day_cells n)) in *.
  set (y := combine (index (frame s)) (map Some closes)) in *.
  assert (HX : length X = n).
  { subst X. unfold day_cells. rewrite length_combine, length_map, length_arange. lia. }
  assert (Htr : length (firstn (n_train n) X) = n_train n).
  { rewrite length_firstn. lia. }
  exists (firstn (n_train n) X), (skipn (n_train n) X),
         (firstn (n_train n) y), (skipn (n_train n) y).
  rewrite Hrun. cbn [snd]. rewrite Htr.
  split; [reflexivity |].
  split; [apply firstn_skipn |].
  split; [apply firstn_skipn |].
  split; [apply (split_X_dates s closes Hps) |].
  split; [apply (split_X_dates s closes Hps) |].
  split; [apply (split_y_closes s closes Hps) |].
  split; [apply (split_y_closes s closes Hps) |].
  split; [lia |].
  split; [rewrite length_skipn; lia |].
  split.
  { unfold X, n. destruct (split_X_dates s closes Hps (n_train (length closes))) as [-> ->].
    destruct Hps as (Hsorted & _).
    rewrite <- (firstn_skipn (n_train n) (index (frame s))) in Hsorted.
    apply sorted_app_lt. exact Hsorted. }
  intros H10.
  assert (Hn8 : n_train n = 8%nat) by lia.
  unfold X, n. destruct (split_X_days s closes Hps (n_train (length closes))) as [-> ->].
  fold n. rewrite Hn8, H10. split; reflexivity.
Qed.

Lemma split_is_chronological_witness :
  exists X_train X_test y_train y_test,
    snd (split_records sample_env) = Returned (X_train, X_test, y_train, y_test)
    /\ X_train ++ X_test = combine (index sample_frame) (day_cells 10)
    /\ y_train ++ y_test = combine (index sample_frame) (map Some sample_closes)
    /\ map fst X_train = firstn (length X_train) (index sample_frame)
    /\ map fst X_test = skipn (length X_train) (index sample_frame)
    /\ map snd y_train = map Some (firstn (length X_train) sample_closes)
    /\ map snd y_test = map Some (skipn (length X_train) sample_closes)
    /\ (5 * length X_train <= 4 * 10 < 5 * length X_train + 5)%nat
    /\ (length X_train + length X_test = 10)%nat
    /\ (forall a b, In a (map fst X_train) -> In b (map fst X_test) -> (a < b)%Z)
    /\ (10%nat = 10%nat ->
        map snd X_train = day_cells 8 /\ map snd X_test = skipn 8 (day_cells 10)).
Proof.
  apply (split_is_chronological sample_env sample_closes).
  - series_by_computation.
  - simpl. lia.
  - vm_compute. reflexivity.
Defined.

(** C9. For a series of [n >= 2] records the evaluation slice holds exactly
    [ceil(0.2 * n)] records, the training slice the [n - ceil(0.2 * n)]
    before them. *)
Theorem split_sizes_ceiling (s : Env) (closes : list Q) :
  price_series (frame s) closes ->
  (2 <= length closes)%nat -> exact_len (length closes) ->
  exists X_train X_test y_train y_test,
    snd (split_records s) = Returned (X_train, X_test, y_train, y_test)
    /\ length X_test = n_test (length closes)
    /\ length y_test = length X_test
    /\ (5 * (length X_test - 1) < length closes <= 5 * length X_test)%nat
    /\ length X_train = (length closes - length X_test)%nat
    /\ length y_train = length X_train
    /\ map fst (X_train ++ X_test) = index (frame s)
    /\ map fst (y_train ++ y_test) = index (frame s).
Proof.
  intros Hps H2 Hex.
  pose proof (split_records_run s closes Hps H2 Hex) as Hrun. cbv zeta in Hrun.
  pose proof (split_dates_len s closes Hps) as Hdates.
  pose proof (n_test_bounds _ Hex) as Hb.
  pose proof (n_train_test _ Hex) as Hsum.
  set (n := length closes) in *.
  set (X := combine (index (frame s)) (day_cells n)) in *.
  set (y := combine (index (frame s)) (map Some closes)) in *.
  assert (HX : length X = n).
  { subst X. unfold day_cells. rewrite length_combine, length_map, length_arange. lia. }
  assert (Hy : length y = n).
  { subst y. rewrite length_combine, length_map. lia. }
  exists (firstn (n_train n) X), (skipn (n_train n) X),
         (firstn (n_train n) y), (skipn (n_train n) y).
  rewrite Hrun. cbn [snd].
  rewrite !length_skipn, !length_firstn, !firstn_skipn, HX, Hy.
  split; [reflexivity |].
  split; [lia |].
  split; [lia |].
  split; [lia |].
  split; [lia |].
  split; [lia |].
  subst X y. split; apply map_fst_combine.
  - unfold day_cells. rewrite length_map, length_arange. exact Hdates.
  - rewrite length_map. exact Hdates.
Qed.

Lemma split_sizes_ceiling_witness :
  exists X_train X_test y_train y_test,
    snd (split_records sample_env) = Returned (X_train, X_test, y_train, y_test)
    /\ length X_test = n_test (length sample_closes)
    /\ length y_test = length X_test
    /\ (5 * (length X_test - 1) < length sample_closes <= 5 * length X_test)%nat
    /\ length X_train = (length sample_closes - length X_test)%nat
    /\ length y_train = length X_train
    /\ map fst (X_train ++ X_test) = index sample_frame
    /\ map fst (y_train ++ y_test) = index sample_frame.
Proof.
  apply (split_sizes_ceiling sample_env sample_closes).
  - series_by_computation.
  - simpl. lia.
  - vm_compute. reflexivity.
Defined.

(** ** Label-based assignment on unique dates *)

Lemma sorted_nodup (l : list Z) : StronglySorted Z.lt l -> NoDup l.
Proof.
  induction 1 as [| a l Hs IH Hall]; constructor; auto.
  intros Hin. rewrite Forall_forall in Hall. specialize (Hall _ Hin). lia.
Qed.

Lemma positions_from_absent (k : nat) (label : date) (idx : list date) :
  ~ In label idx -> positions_from k label idx = [].
Proof.
  revert k. induction idx as [| d rest IH]; simpl; intros k Hn; auto.
  destruct (Z.eqb_spec d label); [tauto |]. apply IH. tauto.
Qed.

Lemma positions_from_unique (k : nat) (label : date) (pre sfx : list date) :
  NoDup (pre ++ label :: sfx) ->
  positions_from k label (pre ++ label :: sfx) = [(k + length pre)%nat].
Proof.
  revert k. induction pre as [| d pre IH]; simpl; intros k Hnd.
  - rewrite Z.eqb_refl. apply NoDup_cons_iff in Hnd. destruct Hnd as [Hn _].
    rewrite positions_from_absent by exact Hn. f_equal. lia.
  - apply NoDup_cons_iff in Hnd. destruct Hnd as [Hn Hnd].
    destruct (Z.eqb_spec d label) as [-> | Hne].
    + exfalso. apply Hn. apply in_or_app. right. now left.
    + rewrite IH by exact Hnd. f_equal. lia.
Qed.

Lemma indexer_suffix (pre sfx : list date) :
  NoDup (pre ++ sfx) ->
  indexer sfx (pre ++ sfx) = seq (length pre) (length sfx).
Proof.
  unfold indexer. revert pre. induction sfx as [| l sfx IH]; intros pre Hnd; simpl; auto.
  rewrite positions_from_unique by exact Hnd. simpl. f_equal.
  specialize (IH (pre ++ [l])).
  rewrite <- app_assoc in IH. simpl in IH.
  rewrite IH by exact Hnd. rewrite length_app. simpl. f_equal. lia.
Qed.

Lemma set_nth_middle {A : Type} (pre : list A) (x a : A) (rest : list A) :
  set_nth (length pre) a (pre ++ x :: rest) = pre ++ a :: rest.
Proof. induction pre; simpl; congruence. Qed.

Lemma scatter_suffix (values : list Q) :
  forall pre old : list (option Q),
    length old = length values ->
    scatter (seq (length pre) (length values)) values (pre ++ old)
    = pre ++ map Some values.
Proof.
  unfold scatter. induction values as [| v values IH]; intros pre old Hlen.
  - destruct old; [| discriminate]. reflexivity.
  - destruct old as [| o old]; [discriminate |]. simpl.
    rewrite set_nth_middle.
    specialize (IH (pre ++ [Some v]) old).
    rewrite length_app in IH. simpl in IH.
    replace (length pre + 1)%nat with (S (length pre)) in IH by lia.
    rewrite <- !app_assoc in IH. simpl in IH. apply IH.
    simpl in Hlen. lia.
Qed.

Lemma finite_all (qs : list Q) : finite (map Some qs) = Returned qs.
Proof. induction qs as [| q qs IH]; simpl; [| rewrite IH]; reflexivity. Qed.

Lemma day_cells_days (n : nat) : exact_len n -> day_cells n = map Some (days_q n).
Proof.
  intros Hex. unfold day_cells, days_q, arange. rewrite !map_map.
  apply map_ext_in. intros i Hi. apply in_seq in Hi.
  rewrite float_of_int_exact; [reflexivity |]. unfold exact_len in Hex. lia.
Qed.

Lemma length_days_q (n : nat) : length (days_q n) = n.
Proof. unfold days_q. now rewrite length_map, length_arange. Qed.

Lemma length_trend_forecast (closes : list Q) :
  exact_len (length closes) ->
  length (trend_forecast closes) = n_test (length closes).
Proof.
  intros Hex. unfold trend_forecast. rewrite length_map, length_skipn, length_days_q.
  pose proof (n_train_test _ Hex). lia.
Qed.

(** ** A run of the trend stage on a price series *)

Lemma print_run (m : message) (s : Env) :
  print m s
  = (mkEnv (frame s) (stdout s ++ [m]) (fs s) (gcf s) (plt_log s) (provider s), Returned tt).
Proof. reflexivity. Qed.

Lemma linear_regression_run (s : Env) (closes : list Q) :
  price_series (frame s) closes ->
  (2 <= length closes)%nat -> exact_len (length closes) ->
  let n := length closes in
  let forecast := repeat None (n_train n) ++ map Some (trend_forecast closes) in
  let d3 := set_column "Linear_Regression_Pred" (FloatCol forecast)
              (set_column "Linear_Regression_Pred" (FloatCol (repeat None n))
                 (set_column "Days" (IntCol (arange n)) (frame s))) in
  linear_regression_prediction s
  = (mkEnv d3 (stdout s ++ [MseLine (trend_mse closes)]) (fs s) (gcf s) (plt_log s)
           (provider s),
     Returned d3).
Proof.
  intros Hps H2 Hex n forecast d3.
  pose proof (split_records_run s closes Hps H2 Hex) as Hsplit. cbv zeta in Hsplit.
  pose proof (price_series_len _ _ Hps) as Hlen.
  pose proof (n_train_test _ Hex) as Hsum.
  pose proof (length_trend_forecast closes Hex) as Hfc.
  fold n in Hsplit, Hsum, Hfc.
  unfold linear_regression_prediction.
  run_with Hsplit. cbv iota beta.
  set (s1 := with_frame _ s).
  destruct (split_X_days s closes Hps (n_train n)) as [EX1 EX2].
  destruct (split_y_closes s closes Hps (n_train n)) as [Ey1 Ey2].
  destruct (split_X_dates s closes Hps (n_train n)) as [_ Ed2].
  fold n in EX1, EX2, Ed2. rewrite EX1, EX2, Ey1, Ey2, Ed2.
  rewrite day_cells_days, firstn_map, skipn_map by exact Hex.
  assert (Hfit : fit (map Some (firstn (n_train n) (days_q n)))
                     (map Some (firstn (n_train n) closes))
                 = Returned (trend_model closes)).
  { unfold fit. rewrite !finite_all. reflexivity. }
  rewrite Hfit.
  run_with (lift_run (Returned (trend_model closes)) s1).
  assert (Hpred : predict (trend_model closes) (map Some (skipn (n_train n) (days_q n)))
                  = Returned (trend_forecast closes)).
  { unfold predict. rewrite finite_all. reflexivity. }
  rewrite Hpred.
  run_with (lift_run (Returned (trend_forecast closes)) s1).
  assert (Hmse : mean_squared_error (map Some (skipn (n_train n) closes))
                   (trend_forecast closes)
                 = Returned (trend_mse closes)).
  { unfold mean_squared_error. rewrite finite_all, length_skipn, Hfc.
    replace (length closes - n_train n)%nat with (n_test n) by (unfold n in *; lia).
    rewrite Nat.eqb_refl. reflexivity. }
  rewrite Hmse.
  run_with (lift_run (Returned (trend_mse closes)) s1).
  run_with (print_run (MseLine (trend_mse closes)) s1).
  set (s2 := mkEnv (frame s1) _ _ _ _ _).
  run_with (get_frame_run s2).
  assert (Hlen2 : len (frame s2) = n) by exact Hlen.
  rewrite Hlen2.
  run_with (setitem_run "Linear_Regression_Pred" (FloatCol (repeat None n)) s2).
  set (s3 := with_frame _ s2).
  assert (Hloc : loc_setitem (skipn (n_train n) (index (frame s)))
                   "Linear_Regression_Pred" (trend_forecast closes) s3
                 = (with_frame d3 s3, Returned tt)).
  { unfold loc_setitem.
    run_with (get_frame_run s3).
    assert (Hget : get_column "Linear_Regression_Pred" (frame s3)
                   = Some (FloatCol (repeat None n))) by apply get_set_same.
    run_with (getitem_some _ _ _ Hget).
    run_with (lift_run (Returned (repeat (@None Q) n)) s3).
    assert (Hidx : index (frame s3) = index (frame s)) by reflexivity.
    rewrite Hidx.
    assert (Hrows : indexer (skipn (n_train n) (index (frame s))) (index (frame s))
                    = seq (n_train n) (n_test n)).
    { rewrite <- (firstn_skipn (n_train n) (index (frame s))) at 2.
      rewrite indexer_suffix.
      - rewrite length_firstn, length_skipn. unfold len in Hlen. f_equal; lia.
      - rewrite firstn_skipn. apply sorted_nodup. apply Hps. }
    rewrite Hrows, length_seq, Hfc, Nat.eqb_refl. cbn [negb].
    rewrite setitem_run. f_equal. f_equal. subst d3. f_equal. f_equal.
    assert (Hrep : repeat (@None Q) n
                   = repeat None (n_train n) ++ repeat None (n_test n)).
    { rewrite <- repeat_app. f_equal. lia. }
    rewrite Hrep.
    pose proof (scatter_suffix (trend_forecast closes) (repeat None (n_train n))
                  (repeat None (n_test n))) as Hsc.
    rewrite !repeat_length, Hfc in Hsc. apply Hsc. reflexivity. }
  run_with Hloc.
  reflexivity.
Qed.

(** ** Least squares *)

Section LeastSquares.
Local Open Scope Q_scope.




















End LeastSquares.

(** ** The forecast column *)

Lemma nth_error_arange (n i : nat) :
  (i < n)%nat -> nth_error (arange n) i = Some (Z.of_nat i).
Proof.
  intros Hi. unfold arange. rewrite nth_error_map, nth_error_seq.
  destruct (Nat.ltb_spec i n); [reflexivity | lia].
Qed.







(** ** The reported error *)






(** ** What a stage leaves alone *)

Lemma preserves_bind {A B : Type} (P : DataFrame -> Prop) (m : Py A) (k : A -> Py B) :
  preserves P m -> (forall a, preserves P (k a)) -> preserves P (bind m k).
Proof.
  intros Hm Hk s Hs. unfold bind. specialize (Hm s Hs).
  destruct (m s) as [s1 [a | e]]; simpl in *; auto. apply Hk. exact Hm.
Qed.

Lemma preserves_same {A : Type} (P : DataFrame -> Prop) (m : Py A) :
  (forall s, frame (fst (m s)) = frame s) -> preserves P m.
Proof. intros H s Hs. now rewrite H. Qed.

Lemma preserves_getitem (P : DataFrame -> Prop) (name : string) :
  preserves P (getitem name).
Proof.
  apply preserves_same. intros s. unfold getitem, bind, get_frame.
  destruct (get_column name (frame s)); reflexivity.
Qed.

Lemma preserves_lift {A : Type} (P : DataFrame -> Prop) (r : outcome A) :
  preserves P (lift r).
Proof. apply preserves_same. reflexivity. Qed.

Lemma preserves_get_frame (P : DataFrame -> Prop) : preserves P get_frame.
Proof. apply preserves_same. reflexivity. Qed.

Lemma preserves_raise {A : Type} (P : DataFrame -> Prop) (e : exn) :
  preserves P (@raise A e).
Proof. apply preserves_same. reflexivity. Qed.

Lemma preserves_print (P : DataFrame -> Prop) (m : message) : preserves P (print m).
Proof. apply preserves_same. reflexivity. Qed.

Lemma preserves_setitem (P : DataFrame -> Prop) (name : string) (c : column) :
  (forall d, P d -> P (set_column name c d)) -> preserves P (setitem name c).
Proof. intros H s Hs. apply H. exact Hs. Qed.

Lemma preserves_loc_setitem (P : DataFrame -> Prop) (labels : list date) (name : string)
    (values : list Q) :
  (forall c d, P d -> P (set_column name c d)) ->
  preserves P (loc_setitem labels name values).
Proof.
  intros H. unfold loc_setitem.
  apply preserves_bind; [apply preserves_get_frame | intros d].
  apply preserves_bind; [apply preserves_getitem | intros col].
  apply preserves_bind; [apply preserves_lift | intros cells].
  destruct (negb _).
  - apply preserves_raise.
  - apply preserves_setitem. apply H.
Qed.

Lemma preserves_moving_average (P : DataFrame -> Prop) (w : nat) :
  (forall c d, P d -> P (set_column "Moving_Avg" c d)) ->
  preserves P (moving_average_prediction w).
Proof.
  intros H. unfold moving_average_prediction.
  apply preserves_bind; [apply preserves_getitem | intros close].
  apply preserves_bind; [apply preserves_lift | intros xs].
  apply preserves_bind; [apply preserves_setitem, H | intros _].
  apply preserves_get_frame.
Qed.

Lemma preserves_split_records (P : DataFrame -> Prop) :
  (forall c d, P d -> P (set_column "Days" c d)) ->
  preserves P split_records.
Proof.
  intros H. unfold split_records.
  apply preserves_bind; [apply preserves_get_frame | intros d].
  apply preserves_bind; [apply preserves_setitem, H | intros _].
  apply preserves_bind; [apply preserves_getitem | intros days].
  apply preserves_bind; [apply preserves_lift | intros xs].
  apply preserves_bind; [apply preserves_getitem | intros close].
  apply preserves_bind; [apply preserves_lift | intros ys].
  apply preserves_lift.
Qed.

(** The second half of the trend stage, whatever the split was. *)
Lemma preserves_after_split (P : DataFrame -> Prop)
    (split : labelled * labelled * labelled * labelled) :
  (forall c d, P d -> P (set_column "Linear_Regression_Pred" c d)) ->
  preserves P
    (let '(X_train, X_test, y_train, y_test) := split in
     model <- lift (fit (map snd X_train) (map snd y_train)) ;;
     y_pred <- lift (predict model (map snd X_test)) ;;
     mse <- lift (mean_squared_error (map snd y_test) y_pred) ;;
     print (MseLine mse) ;;;
     d <- get_frame ;;
     setitem "Linear_Regression_Pred" (FloatCol (repeat None (len d))) ;;;
     loc_setitem (map fst X_test) "Linear_Regression_Pred" y_pred ;;;
     get_frame).
Proof.
  intros H. destruct split as [[[X_train X_test] y_train] y_test].
  apply preserves_bind; [apply preserves_lift | intros model].
  apply preserves_bind; [apply preserves_lift | intros y_pred].
  apply preserves_bind; [apply preserves_lift | intros mse].
  apply preserves_bind; [apply preserves_print | intros _].
  apply preserves_bind; [apply preserves_get_frame | intros d].
  apply preserves_bind; [apply preserves_setitem, H | intros _].
  apply preserves_bind; [apply preserves_loc_setitem, H | intros _].
  apply preserves_get_frame.
Qed.

Lemma preserves_linear_regression (P : DataFrame -> Prop) :
  (forall c d, P d -> P (set_column "Days" c d)) ->
  (forall c d, P d -> P (set_column "Linear_Regression_Pred" c d)) ->
  preserves P linear_regression_prediction.
Proof.
  intros H1 H2. unfold linear_regression_prediction.
  apply preserves_bind; [apply preserves_split_records, H1 | intros split].
  apply preserves_after_split, H2.
Qed.

(** The split leaves the frame with its time index set. *)
Lemma split_records_days (s : Env) :
  index (frame (fst (split_records s))) = index (frame s)
  /\ get_column "Days" (frame (fst (split_records s)))
     = Some (IntCol (arange (len (frame s)))).
Proof.
  unfold split_records.
  run_with (get_frame_run s).
  run_with (setitem_run "Days" (IntCol (arange (len (frame s)))) s).
  set (s1 := with_frame _ s).
  set (rest := bind _ _).
  assert (Hp : preserves (fun d => index d = index (frame s)
                          /\ get_column "Days" d = Some (IntCol (arange (len (frame s)))))
                 rest).
  { subst rest.
    apply preserves_bind; [apply preserves_getitem | intros days].
    apply preserves_bind; [apply preserves_lift | intros xs].
    apply preserves_bind; [apply preserves_getitem | intros close].
    apply preserves_bind; [apply preserves_lift | intros ys].
    apply preserves_lift. }
  apply (Hp s1). subst s1. cbn [frame with_frame].
  split; [reflexivity | apply get_set_same].
Qed.

Lemma sorted_arange_from (a n : nat) : StronglySorted Z.lt (map Z.of_nat (seq a n)).
Proof.
  revert a. induction n as [| n IH]; intros a; simpl; constructor.
  - apply IH.
  - apply Forall_forall. intros x Hx. apply in_map_iff in Hx.
    destruct Hx as (i & <- & Hi). apply in_seq in Hi. lia.
Qed.

(** C5. Whatever the series and however the stage ends, it leaves a [Days]
    column holding the integers 0, 1, ..., n-1, one per record and strictly
    increasing, on the rows of the series in their existing order. *)
Theorem time_index_column (s : Env) :
  let n := len (frame s) in
  let s' := fst (linear_regression_prediction s) in
  get_column "Days" (frame s') = Some (IntCol (arange n))
  /\ index (frame s') = index (frame s)
  /\ length (arange n) = length (index (frame s'))
  /\ (forall i, (i < n)%nat -> nth_error (arange n) i = Some (Z.of_nat i))
  /\ StronglySorted Z.lt (arange n).
Proof.
  intros n s'.
  assert (Hinv : index (frame s') = index (frame s)
                 /\ get_column "Days" (frame s') = Some (IntCol (arange n))).
  { subst s'. unfold linear_regression_prediction, bind.
    pose proof (split_records_days s) as Hdays.
    destruct (split_records s) as [s1 [split | e]]; cbn [fst] in *; [| exact Hdays].
    apply (preserves_after_split
             (fun d => index d = index (frame s)
                       /\ get_column "Days" d = Some (IntCol (arange n)))).
    - intros c d [Hi Hd]. split; [exact Hi |].
      rewrite get_set_other by discriminate. exact Hd.
    - exact Hdays. }
  destruct Hinv as [Hidx Hdays].
  split; [exact Hdays |].
  split; [exact Hidx |].
  split; [rewrite Hidx; apply length_arange |].
  split; [intros i Hi; apply nth_error_arange; exact Hi |].
  apply sorted_arange_from.
Qed.

(** ** Derived columns *)

Lemma extends_refl (derived : list string) (d : DataFrame) : extends derived d d.
Proof.
  split; [reflexivity |]. split; [reflexivity |].
  split; [exists []; now rewrite app_nil_r |].
  intros _. exists []. now rewrite app_nil_r.
Qed.

Lemma names_assign (name : string) (c : column) (cols : list (string * column)) :
  exists extra, map fst (assign_col name c cols) = map fst cols ++ extra.
Proof.
  induction cols as [| [k c0] rest [extra IH]]; simpl.
  - now exists [name].
  - destruct (String.eqb k name); simpl.
    + exists []. now rewrite app_nil_r.
    + exists extra. now rewrite IH.
Qed.

Lemma assign_app_fresh (name : string) (c : column) (cols extra : list (string * column)) :
  lookup_col name cols = None ->
  assign_col name c (cols ++ extra) = cols ++ assign_col name c extra.
Proof.
  induction cols as [| [k c0] rest IH]; simpl; auto.
  destruct (String.eqb k name); [discriminate |].
  intros H. now rewrite IH.
Qed.

Lemma assign_names_in (derived : list string) (name : string) (c : column)
    (extra : list (string * column)) :
  In name derived ->
  Forall (fun kc => In (fst kc) derived) extra ->
  Forall (fun kc => In (fst kc) derived) (assign_col name c extra).
Proof.
  intros Hin. induction 1 as [| [k c0] rest Hk Hrest IH]; simpl.
  - constructor; simpl; auto.
  - destruct (String.eqb k name); constructor; simpl in *; auto.
Qed.

Lemma extends_set_column (derived : list string) (d0 d : DataFrame) (name : string)
    (c : column) :
  In name derived -> extends derived d0 d -> extends derived d0 (set_column name c d).
Proof.
  intros Hin (Hidx & Hother & [extra Hnames] & Hfresh).
  split; [exact Hidx |].
  split.
  { intros other Hno. rewrite get_set_other; [apply Hother; exact Hno |].
    intros ->. contradiction. }
  split.
  { destruct (names_assign name c (columns d)) as [extra' E].
    exists (extra ++ extra'). unfold column_names in *. cbn [columns set_column].
    rewrite E, Hnames. now rewrite app_assoc. }
  intros Hnone. destruct (Hfresh Hnone) as (ex & Hcols & Hall).
  exists (assign_col name c ex). cbn [columns set_column].
  rewrite Hcols. split.
  - apply assign_app_fresh. apply Hnone. exact Hin.
  - apply assign_names_in; assumption.
Qed.

Lemma moving_average_cases (w : nat) (s : Env) :
  (fst (moving_average_prediction w s) = s
   /\ exists e, snd (moving_average_prediction w s) = Raised e)
  \/ (exists ma,
        fst (moving_average_prediction w s)
        = with_frame (set_column "Moving_Avg" (FloatCol ma) (frame s)) s
        /\ snd (moving_average_prediction w s)
           = Returned (set_column "Moving_Avg" (FloatCol ma) (frame s))).
Proof.
  unfold moving_average_prediction.
  destruct (get_column "Close" (frame s)) as [close |] eqn:E.
  - run_with (getitem_some _ _ _ E).
    destruct close as [xs | xs | xs]; cbn [as_float].
    + run_with (lift_run (Returned xs) s).
      run_with (setitem_run "Moving_Avg" (FloatCol (rolling_mean w xs)) s).
      right. eexists. split; reflexivity.
    + run_with (lift_run (Returned (map (fun z => Some (float_of_int z)) xs)) s).
      run_with (setitem_run "Moving_Avg"
                  (FloatCol (rolling_mean w (map (fun z => Some (float_of_int z)) xs))) s).
      right. eexists. split; reflexivity.
    + rewrite (bind_raised _ _ _ _ _ (lift_run (Raised DataError) s)).
      left. split; [reflexivity | eexists; reflexivity].
  - rewrite (bind_raised _ _ _ _ _ (getitem_none _ _ E)).
    left. split; [reflexivity | eexists; reflexivity].
Qed.

(** C6.  Both stages keep the rows and their order (so a series sorted by
    date stays sorted) and every column they do not derive, in its place;
    on a frame that has no column of a derived name they only append derived
    columns.  The moving-average stage changes nothing but the frame, and
    the frame only by setting the [Moving_Avg] column.  A column that
    already has a derived name is replaced. *)
Theorem stages_preserve_series (s : Env) (w : nat) :
  let sm := fst (moving_average_prediction w s) in
  let st := fst (linear_regression_prediction s) in
  extends moving_average_columns (frame s) (frame sm)
  /\ extends trend_columns (frame s) (frame st)
  /\ (StronglySorted Z.lt (index (frame s)) ->
      StronglySorted Z.lt (index (frame sm)) /\ StronglySorted Z.lt (index (frame st)))
  /\ sm = with_frame (frame sm) s
  /\ (frame sm = frame s
      \/ exists ma, frame sm = set_column "Moving_Avg" (FloatCol ma) (frame s)
                    /\ (get_column "Moving_Avg" (frame s) = None ->
                        columns (frame sm)
                        = columns (frame s) ++ [("Moving_Avg", FloatCol ma)])).
Proof.
  intros sm st.
  assert (Hm : extends moving_average_columns (frame s) (frame sm)).
  { apply (preserves_moving_average (extends moving_average_columns (frame s))).
    - intros c d. apply extends_set_column. simpl. auto.
    - apply extends_refl. }
  assert (Ht : extends trend_columns (frame s) (frame st)).
  { apply (preserves_linear_regression (extends trend_columns (frame s))).
    - intros c d. apply extends_set_column. simpl. auto.
    - intros c d. apply extends_set_column. simpl. auto.
    - apply extends_refl. }
  split; [exact Hm |]. split; [exact Ht |].
  split.
  { intros Hs. destruct Hm as (-> & _). destruct Ht as (-> & _). auto. }
  destruct (moving_average_cases w s) as [[E _] | (ma & E & _)]; fold sm in E; rewrite E.
  - split; [destruct s; reflexivity | left; reflexivity].
  - split; [reflexivity |]. right. exists ma. split; [reflexivity |].
    intros Hnone. cbn [frame with_frame set_column columns].
    apply assign_fresh. exact Hnone.
Qed.

Lemma stages_preserve_series_witness :
  StronglySorted Z.lt (index (frame (fst (moving_average_prediction 5 sample_env))))
  /\ StronglySorted Z.lt (index (frame (fst (linear_regression_prediction sample_env)))).
Proof.
  apply (stages_preserve_series sample_env 5).
  sorted_by_computation.
Defined.

(** An existing column is replaced, not kept: on the sample after a moving
    average over three records, a moving average over five records leaves
    the columns where they were and overwrites [Moving_Avg], whose third
    cell was defined and is now missing. *)
Lemma stage_replaces_existing_column :
  let s' := fst (moving_average_prediction 5 averaged_env) in
  exists before after,
    price_series (frame averaged_env) sample_closes
    /\ get_column "Moving_Avg" (frame averaged_env) = Some (FloatCol before)
    /\ get_column "Moving_Avg" (frame s') = Some (FloatCol after)
    /\ (exists m, nth_error before 2 = Some (Some m))
    /\ nth_error after 2 = Some None
    /\ before <> after
    /\ column_names (frame s') = column_names (frame averaged_env)
    /\ ~ (exists extra,
            extra <> [] /\ columns (frame s') = columns (frame averaged_env) ++ extra).
Proof.
  intros s'.
  exists (rolling_mean 3 (map Some sample_closes)),
         (rolling_mean 5 (map Some sample_closes)).
  split; [series_by_computation |].
  split; [reflexivity |].
  split; [reflexivity |].
  split; [eexists; reflexivity |].
  split; [reflexivity |].
  split.
  { intros H. apply (f_equal (fun l => nth_error l 2)) in H. discriminate H. }
  split; [reflexivity |].
  intros (extra & Hne & H).
  apply (f_equal (@length _)) in H. rewrite length_app in H.
  destruct extra; [congruence | simpl in H; vm_compute in H; lia].
Qed.

(** ** The chart *)

(** One step of the visualizer: a pyplot call, or a column read. *)
Ltac plot_step :=
  erewrite bind_returned
    by first [ apply getitem_some; cbn [frame]; eassumption | reflexivity ];
  cbv beta;
  cbn [frame stdout fs gcf plt_log provider
       figsize lines title xlabel ylabel legend grid empty_figure app].

Lemma visualize_run (s : Env) (dates close ma pred : column) :
  get_column "Date" (frame s) = Some dates ->
  get_column "Close" (frame s) = Some close ->
  get_column "Moving_Avg" (frame s) = Some ma ->
  get_column "Linear_Regression_Pred" (frame s) = Some pred ->
  let chart := chart_of dates close ma pred in
  visualize_predictions s
  = (mkEnv (frame s) (stdout s) (write_file chart_file (Image chart) (fs s)) chart
           (plt_log s ++ [Saved chart_file chart] ++ [Shown chart]) (provider s),
     Returned tt).
Proof.
  intros Hd Hc Hm Hp chart.
  unfold visualize_predictions.
  plot_step. plot_step. plot_step. plot_step.
  plot_step. plot_step. plot_step.
  plot_step. plot_step. plot_step.
  plot_step. plot_step. plot_step. plot_step. plot_step. plot_step.
  unfold plt_show. cbn [frame stdout fs gcf plt_log provider].
  rewrite <- app_assoc. reflexivity.
Qed.

(** C8. Given a frame with the date, close, moving-average and forecast
    columns, the visualizer writes the chart to
    [nvidia_stock_price_prediction.png] whatever that file held before,
    leaves every other file alone, then shows the same chart, and returns
    nothing. *)
Theorem chart_saved_then_shown (s : Env) (dates close ma pred : column) :
  get_column "Date" (frame s) = Some dates ->
  get_column "Close" (frame s) = Some close ->
  get_column "Moving_Avg" (frame s) = Some ma ->
  get_column "Linear_Regression_Pred" (frame s) = Some pred ->
  let s' := fst (visualize_predictions s) in
  let chart := chart_of dates close ma pred in
  snd (visualize_predictions s) = Returned tt
  /\ chart_file = "nvidia_stock_price_prediction.png"
  /\ fs s' chart_file = Some (Image chart)
  /\ (forall name, name <> chart_file -> fs s' name = fs s name)
  /\ plt_log s' = plt_log s ++ [Saved chart_file chart; Shown chart]
  /\ gcf s' = chart
  /\ frame s' = frame s
  /\ stdout s' = stdout s.
Proof.
  intros Hd Hc Hm Hp s' chart.
  pose proof (visualize_run s dates close ma pred Hd Hc Hm Hp) as Hrun. cbv zeta in Hrun.
  subst s'. rewrite Hrun. cbn [fst snd fs plt_log gcf frame stdout].
  split; [reflexivity |]. split; [reflexivity |].
  split.
  { unfold write_file. now rewrite String.eqb_refl. }
  split.
  { intros name Hne. unfold write_file.
    destruct (String.eqb_spec name chart_file); [contradiction | reflexivity]. }
  repeat split; reflexivity.
Qed.

(** ** The loader *)

Lemma load_data_run (s : Env) (ticker start_date end_date : string) :
  let p := provider s ticker start_date end_date in
  load_data ticker start_date end_date s
  = (with_frame (set_column "Date" (DateCol (index p)) p) s,
     Returned (set_column "Date" (DateCol (index p)) p)).
Proof. reflexivity. Qed.

(** C10. The loader returns the provider's frame with a [Date] column that
    repeats the index, record by record, and the three lines of the chart
    take their abscissas from that column: the index plays no part in the
    chart. *)
Theorem date_column_is_the_axis (s : Env) (ticker start_date end_date : string) :
  let p := provider s ticker start_date end_date in
  let s' := fst (load_data ticker start_date end_date s) in
  snd (load_data ticker start_date end_date s) = Returned (frame s')
  /\ get_column "Date" (frame s') = Some (DateCol (index (frame s')))
  /\ index (frame s') = index p
  /\ extends ["Date"] p (frame s')
  /\ (forall (s0 : Env) (dates close ma pred : column),
        get_column "Date" (frame s0) = Some dates ->
        get_column "Close" (frame s0) = Some close ->
        get_column "Moving_Avg" (frame s0) = Some ma ->
        get_column "Linear_Regression_Pred" (frame s0) = Some pred ->
        map xdata (lines (gcf (fst (visualize_predictions s0)))) = [dates; dates; dates]
        /\ map ydata (lines (gcf (fst (visualize_predictions s0)))) = [close; ma; pred]
        /\ forall rows : list date,
             gcf (fst (visualize_predictions
                         (with_frame (mkFrame rows (columns (frame s0))) s0)))
             = gcf (fst (visualize_predictions s0))).
Proof.
  intros p s'. subst s'. rewrite load_data_run. cbn [fst snd frame with_frame].
  split; [reflexivity |].
  split; [apply get_set_same |].
  split; [reflexivity |].
  split.
  { apply extends_set_column; [simpl; auto | apply extends_refl]. }
  intros s0 dates close ma pred Hd Hc Hm Hp.
  rewrite (visualize_run s0 dates close ma pred Hd Hc Hm Hp). cbn [fst gcf].
  split; [reflexivity |]. split; [reflexivity |].
  intros rows.
  rewrite (visualize_run (with_frame (mkFrame rows (columns (frame s0))) s0)
             dates close ma pred Hd Hc Hm Hp).
  reflexivity.
Qed.

(** C7, as it stands in the source: the loader takes a ticker and two dates
    and returns the provider's frame for them with the [Date] column added,
    whatever the working directory holds; [main] and the module body call it
    with the default ticker and dates. *)
Theorem loader_fetches_from_provider (s : Env) (ticker start_date end_date : string)
    (files : string -> option file) :
  let p := provider s ticker start_date end_date in
  snd (load_data ticker start_date end_date s)
  = Returned (set_column "Date" (DateCol (index p)) p)
  /\ snd (load_data ticker start_date end_date (with_fs files s))
     = snd (load_data ticker start_date end_date s)
  /\ fs (fst (load_data ticker start_date end_date s)) = fs s
  /\ main s
     = (load_data default_ticker default_start_date default_end_date ;;;
        moving_average_prediction default_window ;;;
        linear_regression_prediction ;;;
        visualize_predictions) s
  /\ script s
     = (stock_data <- load_data default_ticker default_start_date default_end_date ;;
        print (HeadRows (head stock_data)) ;;;
        main) s.
Proof.
  intros p. rewrite !load_data_run. cbn [fst snd fs with_frame with_fs provider].
  repeat split; reflexivity.
Qed.

(** No path makes the loader file-backed: in a working directory where every
    path holds a saved table, it still returns the provider's frame. *)
Lemma loader_is_not_file_backed :
  ~ exists path ticker start_date end_date,
      file_backed (load_data ticker start_date end_date) path.
Proof.
  intros (path & ticker & start_date & end_date & H).
  specialize (H csv_env saved_table eq_refl).
  rewrite load_data_run in H. cbn [snd] in H. discriminate H.
Qed.

Lemma chart_saved_then_shown_witness :
  fs (fst (visualize_predictions pipeline_env)) chart_file
  = Some (Image (chart_of (column_or_empty "Date" (frame pipeline_env))
                          (column_or_empty "Close" (frame pipeline_env))
                          (column_or_empty "Moving_Avg" (frame pipeline_env))
                          (column_or_empty "Linear_Regression_Pred" (frame pipeline_env)))).
Proof.
  apply (chart_saved_then_shown pipeline_env
           (column_or_empty "Date" (frame pipeline_env))
           (column_or_empty "Close" (frame pipeline_env))
           (column_or_empty "Moving_Avg" (frame pipeline_env))
           (column_or_empty "Linear_Regression_Pred" (frame pipeline_env)));
    vm_compute; reflexivity.
Defined.

Lemma date_column_is_the_axis_witness :
  map xdata (lines (gcf (fst (visualize_predictions pipeline_env))))
  = [column_or_empty "Date" (frame pipeline_env);
     column_or_empty "Date" (frame pipeline_env);
     column_or_empty "Date" (frame pipeline_env)].
Proof.
  destruct (date_column_is_the_axis sample_env default_ticker default_start_date
              default_end_date) as (_ & _ & _ & _ & Haxis).
  apply (Haxis pipeline_env
           (column_or_empty "Date" (frame pipeline_env))
           (column_or_empty "Close" (frame pipeline_env))
           (column_or_empty "Moving_Avg" (frame pipeline_env))
           (column_or_empty "Linear_Regression_Pred" (frame pipeline_env)));
    vm_compute; reflexivity.
Defined.

(** ** The whole pipeline on the sample *)

Example main_on_sample :
  snd (main sample_env) = Returned tt
  /\ plt_log (fst (main sample_env))
     = [Saved chart_file (gcf (fst (main sample_env)));
        Shown (gcf (fst (main sample_env)))]
  /\ column_or_empty "Date" (frame (fst (main sample_env)))
     = DateCol (index sample_frame).
Proof. vm_compute. repeat split; reflexivity. Qed.

(** * Further properties *)

(** ** The moving average on any column *)

Lemma length_rolling_mean (w : nat) (xs : list (option Q)) :
  length (rolling_mean w xs) = length xs.
Proof. unfold rolling_mean. now rewrite length_map, length_seq. Qed.

Lemma nth_error_rolling_mean (w i : nat) (xs : list (option Q)) :
  (i < length xs)%nat ->
  nth_error (rolling_mean w xs) i = Some (roll_mean w (window_at w i xs)).
Proof.
  intros Hi. unfold rolling_mean. rewrite nth_error_map, nth_error_seq.
  destruct (Nat.ltb_spec i (length xs)); [reflexivity | lia].
Qed.

Lemma length_observed (win : list (option Q)) : (length (observed win) <= length win)%nat.
Proof.
  induction win as [| [q |] win IH]; simpl; lia.
Qed.

Lemma length_observed_gap (win : list (option Q)) :
  In None win -> (length (observed win) < length win)%nat.
Proof.
  induction win as [| [q |] win IH]; simpl; intros H.
  - contradiction.
  - destruct H as [H | H]; [discriminate |]. specialize (IH H). lia.
  - pose proof (length_observed win). lia.
Qed.

Lemma length_window_at (w i : nat) (xs : list (option Q)) :
  (length (window_at w i xs) <= Nat.min w (i + 1))%nat.
Proof. unfold window_at. rewrite length_firstn, length_skipn. lia. Qed.

Lemma roll_mean_too_few (w : nat) (win : list (option Q)) :
  (length (observed win) < w)%nat -> roll_mean w win = None.
Proof.
  intros H. unfold roll_mean.
  destruct (Nat.leb_spec w (length (observed win))); [lia | reflexivity].
Qed.

Lemma window_at_nth (w i j : nat) (xs : list (option Q)) :
  (i + 1 - w <= j <= i)%nat ->
  nth_error (window_at w i xs) (j - (i + 1 - w)) = nth_error xs j.
Proof.
  intros Hj. unfold window_at.
  rewrite nth_error_firstn.
  destruct (Nat.ltb_spec (j - (i + 1 - w)) (i + 1 - (i + 1 - w))); [| lia].
  rewrite nth_error_skipn. f_equal. lia.
Qed.

(** X3. With missing closes the moving average is missing at a position as
    soon as the window is incomplete or holds a missing close, and is
    defined otherwise. *)
Theorem moving_average_with_gaps (s : Env) (xs : list (option Q)) (w : nat) :
  get_column "Close" (frame s) = Some (FloatCol xs) ->
  (1 <= w)%nat ->
  exists ma,
    get_column "Moving_Avg" (frame (fst (moving_average_prediction w s)))
    = Some (FloatCol ma)
    /\ length ma = length xs
    /\ (forall i, (i < length xs)%nat -> (i + 1 < w)%nat -> nth_error ma i = Some None)
    /\ (forall i j, (i < length xs)%nat -> (i + 1 - w <= j <= i)%nat ->
          nth_error xs j = Some None -> nth_error ma i = Some None)
    /\ (forall i qs, (i < length xs)%nat -> (w <= i + 1)%nat ->
          firstn w (skipn (i + 1 - w) xs) = map Some qs ->
          (exists m, nth_error ma i = Some (Some m)) /\ length qs = w).
Proof.
  intros Hclose Hw. exists (rolling_mean w xs).
  assert (Hrun : moving_average_prediction w s
                 = (with_frame (set_column "Moving_Avg" (FloatCol (rolling_mean w xs))
                                  (frame s)) s,
                    Returned (set_column "Moving_Avg" (FloatCol (rolling_mean w xs))
                                (frame s)))).
  { unfold moving_average_prediction.
    run_with (getitem_some _ _ _ Hclose).
    run_with (lift_run (Returned xs) s).
    run_with (setitem_run "Moving_Avg" (FloatCol (rolling_mean w xs)) s).
    reflexivity. }
  rewrite Hrun. cbn [fst frame with_frame].
  split; [apply get_set_same |].
  split; [apply length_rolling_mean |].
  split.
  { intros i Hi Hshort. rewrite nth_error_rolling_mean by exact Hi. f_equal.
    apply roll_mean_too_few.
    pose proof (length_observed (window_at w i xs)).
    pose proof (length_window_at w i xs). lia. }
  split.
  { intros i j Hi Hj Hnone. rewrite nth_error_rolling_mean by exact Hi. f_equal.
    apply roll_mean_too_few.
    assert (Hin : In None (window_at w i xs)).
    { apply (nth_error_In _ (j - (i + 1 - w))). rewrite window_at_nth by exact Hj.
      exact Hnone. }
    pose proof (length_observed_gap _ Hin).
    pose proof (length_window_at w i xs). lia. }
  intros i qs Hi Hfull Hwin.
  assert (Hlen : length qs = w).
  { rewrite <- (length_map Some qs), <- Hwin, length_firstn, length_skipn. lia. }
  split; [| exact Hlen].
  exists (Qmean qs).
  rewrite nth_error_rolling_mean by exact Hi. f_equal.
  unfold window_at. replace (i + 1 - (i + 1 - w))%nat with w by lia.
  rewrite Hwin. unfold roll_mean, Qmean. rewrite observed_all, Hlen.
  destruct (Nat.leb_spec w w); [| lia].
  destruct (Nat.ltb_spec 0 w); [reflexivity | lia].
Qed.

Lemma moving_average_with_gaps_witness :
  exists ma,
    get_column "Moving_Avg" (frame (fst (moving_average_prediction 2 gap_env)))
    = Some (FloatCol ma)
    /\ length ma = length gap_cells
    /\ (forall i, (i < length gap_cells)%nat -> (i + 1 < 2)%nat ->
          nth_error ma i = Some None)
    /\ (forall i j, (i < length gap_cells)%nat -> (i + 1 - 2 <= j <= i)%nat ->
          nth_error gap_cells j = Some None -> nth_error ma i = Some None)
    /\ (forall i qs, (i < length gap_cells)%nat -> (2 <= i + 1)%nat ->
          firstn 2 (skipn (i + 1 - 2) gap_cells) = map Some qs ->
          (exists m, nth_error ma i = Some (Some m)) /\ length qs = 2%nat).
Proof.
  apply (moving_average_with_gaps gap_env gap_cells 2).
  - reflexivity.
  - lia.
Defined.

(** X2. A window longer than the series leaves every moving-average value
    missing, whatever the closes. *)
Theorem moving_average_window_too_long (s : Env) (xs : list (option Q)) (w : nat) :
  get_column "Close" (frame s) = Some (FloatCol xs) ->
  (length xs < w)%nat ->
  snd (moving_average_prediction w s)
  = Returned (frame (fst (moving_average_prediction w s)))
  /\ get_column "Moving_Avg" (frame (fst (moving_average_prediction w s)))
     = Some (FloatCol (repeat None (length xs))).
Proof.
  intros Hclose Hw.
  assert (Hall : rolling_mean w xs = repeat None (length xs)).
  { unfold rolling_mean. rewrite (map_const_repeat _ None), length_seq; [reflexivity |].
    intros i Hi. apply in_seq in Hi. apply roll_mean_too_few.
    pose proof (length_observed (window_at w i xs)).
    pose proof (length_window_at w i xs). lia. }
  unfold moving_average_prediction.
  run_with (getitem_some _ _ _ Hclose).
  run_with (lift_run (Returned xs) s).
  run_with (setitem_run "Moving_Avg" (FloatCol (rolling_mean w xs)) s).
  rewrite Hall. cbn [fst snd frame with_frame get_frame].
  split; [reflexivity | apply get_set_same].
Qed.

Lemma moving_average_window_too_long_witness :
  get_column "Moving_Avg" (frame (fst (moving_average_prediction 11 sample_env)))
  = Some (FloatCol (repeat None (length (map Some sample_closes)))).
Proof.
  apply (moving_average_window_too_long sample_env (map Some sample_closes) 11).
  - reflexivity.
  - simpl. lia.
Defined.

(** X1. Without a [Close] column the moving-average stage raises
    [KeyError('Close')] and leaves the frame and everything else as it was. *)
Theorem moving_average_missing_close (s : Env) (w : nat) :
  get_column "Close" (frame s) = None ->
  moving_average_prediction w s = (s, Raised (KeyError "Close")).
Proof.
  intros Hnone. unfold moving_average_prediction.
  apply bind_raised. apply getitem_none. exact Hnone.
Qed.

Lemma moving_average_missing_close_witness :
  moving_average_prediction 5 closeless_env = (closeless_env, Raised (KeyError "Close")).
Proof.
  apply (moving_average_missing_close closeless_env 5). reflexivity.
Defined.

(** ** How the trend stage fails *)

(** The split, as far as the call to [train_test_split], on any float
    [Close] column. *)
Lemma split_records_steps (s : Env) (ys : list (option Q)) :
  get_column "Close" (frame s) = Some (FloatCol ys) ->
  let n := len (frame s) in
  split_records s
  = (with_frame (set_column "Days" (IntCol (arange n)) (frame s)) s,
     train_test_split (combine (index (frame s)) (day_cells n))
                      (combine (index (frame s)) ys)).
Proof.
  intros Hclose n. unfold split_records.
  run_with (get_frame_run s).
  run_with (setitem_run "Days" (IntCol (arange (len (frame s)))) s).
  set (s1 := with_frame _ s).
  assert (Hdays : get_column "Days" (frame s1) = Some (IntCol (arange n)))
    by apply get_set_same.
  run_with (getitem_some _ _ _ Hdays).
  run_with (lift_run (Returned (day_cells n)) s1).
  assert (Hclose1 : get_column "Close" (frame s1) = Some (FloatCol ys)).
  { subst s1. cbn [frame with_frame]. rewrite get_set_other by discriminate. exact Hclose. }
  run_with (getitem_some _ _ _ Hclose1).
  run_with (lift_run (Returned ys) s1).
  reflexivity.
Qed.

Lemma length_day_rows (idx : list date) :
  length (combine idx (day_cells (length idx))) = length idx.
Proof.
  unfold day_cells. rewrite length_combine, length_map, length_arange. lia.
Qed.

Lemma train_test_split_too_few {A B : Type} (X : list A) (y : list B) :
  (length X < 2)%nat -> train_test_split X y = Raised ValueError.
Proof.
  intros H. unfold train_test_split.
  destruct (negb (length y =? length X)%nat); [reflexivity |].
  assert (Hz : n_train (length X) = 0%nat).
  { revert H. destruct (length X) as [| [| n]]; intros H;
      [reflexivity | reflexivity | lia]. }
  rewrite Hz. reflexivity.
Qed.

(** X5. On a series of fewer than two records the trend stage raises
    [ValueError] (the training set would be empty): the [Days] column has
    been added by then, but no forecast column is written and nothing is
    printed. *)
Theorem trend_needs_two_records (s : Env) (ys : list (option Q)) :
  get_column "Close" (frame s) = Some (FloatCol ys) ->
  (len (frame s) < 2)%nat ->
  linear_regression_prediction s
  = (with_frame (set_column "Days" (IntCol (arange (len (frame s)))) (frame s)) s,
     Raised ValueError).
Proof.
  intros Hclose Hlen. unfold linear_regression_prediction.
  apply bind_raised. rewrite (split_records_steps s ys Hclose). cbv zeta.
  rewrite train_test_split_too_few; [reflexivity |].
  unfold len in *. rewrite length_day_rows. exact Hlen.
Qed.

Lemma trend_needs_two_records_witness :
  linear_regression_prediction single_env
  = (with_frame (set_column "Days" (IntCol (arange (len (frame single_env))))
                   (frame single_env)) single_env,
     Raised ValueError).
Proof.
  apply (trend_needs_two_records single_env [Some 7%Q]).
  - reflexivity.
  - vm_compute. lia.
Defined.

(** X6. Without a [Close] column the trend stage raises [KeyError('Close')],
    after it has added the [Days] column to the frame. *)
Theorem trend_missing_close (s : Env) :
  get_column "Close" (frame s) = None ->
  linear_regression_prediction s
  = (with_frame (set_column "Days" (IntCol (arange (len (frame s)))) (frame s)) s,
     Raised (KeyError "Close")).
Proof.
  intros Hnone. unfold linear_regression_prediction. apply bind_raised.
  unfold split_records.
  run_with (get_frame_run s).
  run_with (setitem_run "Days" (IntCol (arange (len (frame s)))) s).
  set (s1 := with_frame _ s).
  assert (Hdays : get_column "Days" (frame s1)
                  = Some (IntCol (arange (len (frame s))))) by apply get_set_same.
  run_with (getitem_some _ _ _ Hdays).
  run_with (lift_run (Returned (day_cells (len (frame s)))) s1).
  apply bind_raised. apply getitem_none.
  subst s1. cbn [frame with_frame]. rewrite get_set_other by discriminate. exact Hnone.
Qed.

Lemma trend_missing_close_witness :
  linear_regression_prediction closeless_env
  = (with_frame (set_column "Days" (IntCol (arange (len (frame closeless_env))))
                   (frame closeless_env)) closeless_env,
     Raised (KeyError "Close")).
Proof.
  apply (trend_missing_close closeless_env). reflexivity.
Defined.

Lemma finite_cases (cells : list (option Q)) :
  (exists qs, finite cells = Returned qs /\ cells = map Some qs)
  \/ (finite cells = Raised ValueError /\ In None cells).
Proof.
  induction cells as [| [q |] cells IH]; simpl.
  - left. exists []. auto.
  - destruct IH as [(qs & -> & ->) | [-> Hin]].
    + left. exists (q :: qs). auto.
    + right. auto.
  - right. auto.
Qed.

Lemma no_gap_in_all (qs : list Q) : ~ In None (map Some qs).
Proof.
  intros H. apply in_map_iff in H. destruct H as (q & Hq & _). discriminate.
Qed.

(** X7. A missing close anywhere in a series of at least two records makes
    the trend stage raise [ValueError] before anything is printed and before
    the forecast column is written. *)
Theorem trend_refuses_missing_closes (s : Env) (ys : list (option Q)) :
  get_column "Close" (frame s) = Some (FloatCol ys) ->
  length ys = len (frame s) ->
  (2 <= len (frame s))%nat -> exact_len (len (frame s)) ->
  In None ys ->
  linear_regression_prediction s
  = (with_frame (set_column "Days" (IntCol (arange (len (frame s)))) (frame s)) s,
     Raised ValueError).
Proof.
  intros Hclose Hys H2 Hex Hgap.
  set (n := len (frame s)) in *.
  unfold linear_regression_prediction.
  pose proof (split_records_steps s ys Hclose) as Hsplit. cbv zeta in Hsplit.
  fold n in Hsplit.
  set (X := combine (index (frame s)) (day_cells n)) in *.
  set (y := combine (index (frame s)) ys) in *.
  assert (HX : length X = n) by (subst X n; apply length_day_rows).
  assert (Hy : length y = n).
  { subst y. rewrite length_combine. unfold n, len in *. lia. }
  rewrite train_test_split_ok in Hsplit by (rewrite ?HX; auto).
  rewrite HX in Hsplit.
  run_with Hsplit. cbv iota beta.
  set (s1 := with_frame _ s).
  set (k := n_train n).
  assert (EX1 : map snd (firstn k X) = map Some (firstn k (days_q n))).
  { rewrite <- firstn_map. subst X. rewrite map_snd_combine.
    - rewrite day_cells_days by exact Hex. apply firstn_map.
    - unfold day_cells. rewrite length_map, length_arange. reflexivity. }
  assert (EX2 : map snd (skipn k X) = map Some (skipn k (days_q n))).
  { rewrite <- skipn_map. subst X. rewrite map_snd_combine.
    - rewrite day_cells_days by exact Hex. apply skipn_map.
    - unfold day_cells. rewrite length_map, length_arange. reflexivity. }
  assert (Ey1 : map snd (firstn k y) = firstn k ys).
  { rewrite <- firstn_map. subst y. rewrite map_snd_combine; [reflexivity |].
    unfold n, len in Hys. lia. }
  assert (Ey2 : map snd (skipn k y) = skipn k ys).
  { rewrite <- skipn_map. subst y. rewrite map_snd_combine; [reflexivity |].
    unfold n, len in Hys. lia. }
  rewrite EX1, EX2, Ey1, Ey2.
  unfold fit. rewrite finite_all.
  destruct (finite_cases (firstn k ys)) as [(qs1 & E1 & Hq1) | [E1 _]]; rewrite E1.
  - run_with (lift_run (Returned (least_squares (firstn k (days_q n)) qs1)) s1).
    unfold predict. rewrite finite_all.
    run_with (lift_run (Returned (map (predict_at (least_squares (firstn k (days_q n)) qs1))
                                      (skipn k (days_q n)))) s1).
    unfold mean_squared_error.
    destruct (finite_cases (skipn k ys)) as [(qs2 & E2 & Hq2) | [E2 _]]; rewrite E2.
    + exfalso. rewrite <- (firstn_skipn k ys), Hq1, Hq2, <- map_app in Hgap.
      exact (no_gap_in_all _ Hgap).
    + apply bind_raised. reflexivity.
  - apply bind_raised. reflexivity.
Qed.

Lemma trend_refuses_missing_closes_witness :
  linear_regression_prediction gap_env
  = (with_frame (set_column "Days" (IntCol (arange (len (frame gap_env))))
                   (frame gap_env)) gap_env,
     Raised ValueError).
Proof.
  apply (trend_refuses_missing_closes gap_env gap_cells).
  - reflexivity.
  - reflexivity.
  - vm_compute. lia.
  - vm_compute. reflexivity.
  - simpl. auto.
Defined.

(** ** How the visualizer fails *)

(** A column read that fails, inside the visualizer. *)
Ltac plot_raise :=
  erewrite bind_raised by (apply getitem_none; cbn [frame]; eassumption);
  cbn [fst snd frame stdout fs gcf plt_log provider].

(** X8. When one of the four plotted columns is missing the visualizer
    raises [KeyError] for the first missing one in the order Date, Close,
    Moving_Avg, Linear_Regression_Pred (every column before it in that
    order is present), and neither writes a file nor shows a chart; the
    frame and the console are untouched. *)
Theorem visualizer_missing_column (s : Env) :
  (exists name,
     In name ["Date"; "Close"; "Moving_Avg"; "Linear_Regression_Pred"]
     /\ get_column name (frame s) = None) ->
  let s' := fst (visualize_predictions s) in
  exists before name after,
    ["Date"; "Close"; "Moving_Avg"; "Linear_Regression_Pred"] = before ++ name :: after
    /\ Forall (fun earlier => get_column earlier (frame s) <> None) before
    /\ get_column name (frame s) = None
    /\ snd (visualize_predictions s) = Raised (KeyError name)
    /\ fs s' = fs s
    /\ plt_log s' = plt_log s
    /\ frame s' = frame s
    /\ stdout s' = stdout s.
Proof.
  intros (name & Hin & Hnone) s'. subst s'.
  unfold visualize_predictions.
  plot_step.
  destruct (get_column "Date" (frame s)) as [dates |] eqn:Hd.
  2: { plot_raise. exists [], "Date", ["Close"; "Moving_Avg"; "Linear_Regression_Pred"].
       split; [reflexivity |]. split; [constructor |]. repeat split; auto. }
  plot_step.
  destruct (get_column "Close" (frame s)) as [close |] eqn:Hc.
  2: { plot_raise. exists ["Date"], "Close", ["Moving_Avg"; "Linear_Regression_Pred"].
       split; [reflexivity |].
       split; [repeat constructor; congruence |]. repeat split; auto. }
  plot_step. plot_step. plot_step.
  destruct (get_column "Moving_Avg" (frame s)) as [ma |] eqn:Hm.
  2: { plot_raise. exists ["Date"; "Close"], "Moving_Avg", ["Linear_Regression_Pred"].
       split; [reflexivity |].
       split; [repeat constructor; congruence |]. repeat split; auto. }
  plot_step. plot_step. plot_step.
  destruct (get_column "Linear_Regression_Pred" (frame s)) as [pred |] eqn:Hp.
  2: { plot_raise. exists ["Date"; "Close"; "Moving_Avg"], "Linear_Regression_Pred", [].
       split; [reflexivity |].
       split; [repeat constructor; congruence |]. repeat split; auto. }
  exfalso. simpl in Hin.
  destruct Hin as [<- | [<- | [<- | [<- | []]]]]; congruence.
Qed.

Lemma visualizer_missing_column_witness :
  snd (visualize_predictions (fst (moving_average_prediction 5 sample_env)))
  = Raised (KeyError "Date")
  /\ get_column "Close" (frame (fst (moving_average_prediction 5 sample_env))) <> None.
Proof.
  destruct (visualizer_missing_column (fst (moving_average_prediction 5 sample_env)))
    as (before & name & after & Horder & Hbefore & Hnone & Hraise & _).
  - exists "Linear_Regression_Pred". split; [simpl; auto | reflexivity].
  - destruct before as [| b before].
    + injection Horder as <- _. split; [exact Hraise | vm_compute; discriminate].
    + injection Horder as <- _. inversion Hbefore as [| ? ? Hdate _].
      exfalso. apply Hdate. reflexivity.
Defined.

(** ** Rectangular frames *)

Lemma frame_ok_set (name : string) (c : column) (d : DataFrame) :
  frame_ok d -> col_len c = len d -> frame_ok (set_column name c d).
Proof.
  unfold frame_ok, set_column, len. cbn [columns index].
  intros Hok Hc. induction (columns d) as [| [k c0] rest IH]; simpl.
  - constructor; auto.
  - apply Forall_cons_iff in Hok. destruct Hok as [Hk Hrest].
    destruct (String.eqb k name); constructor; auto.
Qed.

Lemma length_set_nth {A : Type} (i : nat) (a : A) (l : list A) :
  length (set_nth i a l) = length l.
Proof.
  revert i. induction l as [| x l IH]; intros [| i]; simpl; auto.
Qed.

Lemma length_scatter (rows : list nat) (values : list Q) (cells : list (option Q)) :
  length (scatter rows values cells) = length cells.
Proof.
  unfold scatter. revert cells.
  induction (combine rows values) as [| rv rest IH]; intros cells; simpl; auto.
  rewrite IH. apply length_set_nth.
Qed.

Lemma as_float_len (c : column) (cells : list (option Q)) :
  as_float c = Returned cells -> length cells = col_len c.
Proof.
  destruct c as [xs | xs | xs]; simpl; intros [= <-]; auto.
  apply length_map.
Qed.

Lemma loc_setitem_frame_ok (labels : list date) (name : string) (values : list Q)
    (s : Env) :
  frame_ok (frame s) -> frame_ok (frame (fst (loc_setitem labels name values s))).
Proof.
  intros Hok. unfold loc_setitem.
  run_with (get_frame_run s).
  destruct (get_column name (frame s)) as [col |] eqn:Hcol.
  2: { rewrite (bind_raised _ _ _ _ _ (getitem_none _ _ Hcol)). exact Hok. }
  run_with (getitem_some _ _ _ Hcol).
  destruct (as_float col) as [cells | e] eqn:Hcells.
  2: { rewrite (bind_raised _ _ _ _ _ (lift_run (Raised e) s)). exact Hok. }
  run_with (lift_run (Returned cells) s).
  destruct (negb _); [exact Hok |].
  rewrite setitem_run. cbn [fst frame with_frame].
  apply frame_ok_set; [exact Hok |]. cbn [col_len].
  rewrite length_scatter, (as_float_len _ _ Hcells).
  apply (frame_ok_len _ _ _ Hok Hcol).
Qed.

Lemma split_records_frame (s : Env) :
  frame (fst (split_records s))
  = set_column "Days" (IntCol (arange (len (frame s)))) (frame s)
  /\ stdout (fst (split_records s)) = stdout s.
Proof.
  unfold split_records.
  run_with (get_frame_run s).
  run_with (setitem_run "Days" (IntCol (arange (len (frame s)))) s).
  set (s1 := with_frame _ s).
  destruct (get_column "Days" (frame s1)) as [days |] eqn:Hd.
  2: { rewrite (bind_raised _ _ _ _ _ (getitem_none _ _ Hd)). split; reflexivity. }
  run_with (getitem_some _ _ _ Hd).
  destruct (as_array days) as [xs | e].
  2: { rewrite (bind_raised _ _ _ _ _ (lift_run (Raised e) s1)). split; reflexivity. }
  run_with (lift_run (Returned xs) s1).
  destruct (get_column "Close" (frame s1)) as [close |] eqn:Hc.
  2: { rewrite (bind_raised _ _ _ _ _ (getitem_none _ _ Hc)). split; reflexivity. }
  run_with (getitem_some _ _ _ Hc).
  destruct (as_array close) as [ys | e].
  2: { rewrite (bind_raised _ _ _ _ _ (lift_run (Raised e) s1)). split; reflexivity. }
  run_with (lift_run (Returned ys) s1).
  split; reflexivity.
Qed.

Lemma after_split_frame_ok (split : labelled * labelled * labelled * labelled) (s : Env) :
  frame_ok (frame s) ->
  frame_ok (frame (fst
    ((let '(X_train, X_test, y_train, y_test) := split in
      model <- lift (fit (map snd X_train) (map snd y_train)) ;;
      y_pred <- lift (predict model (map snd X_test)) ;;
      mse <- lift (mean_squared_error (map snd y_test) y_pred) ;;
      print (MseLine mse) ;;;
      d <- get_frame ;;
      setitem "Linear_Regression_Pred" (FloatCol (repeat None (len d))) ;;;
      loc_setitem (map fst X_test) "Linear_Regression_Pred" y_pred ;;;
      get_frame) s))).
Proof.
  intros Hok. destruct split as [[[X_train X_test] y_train] y_test].
  destruct (fit (map snd X_train) (map snd y_train)) as [model | e].
  2: { rewrite (bind_raised _ _ _ _ _ (lift_run (Raised e) s)). exact Hok. }
  run_with (lift_run (Returned model) s).
  destruct (predict model (map snd X_test)) as [y_pred | e].
  2: { rewrite (bind_raised _ _ _ _ _ (lift_run (Raised e) s)). exact Hok. }
  run_with (lift_run (Returned y_pred) s).
  destruct (mean_squared_error (map snd y_test) y_pred) as [mse | e].
  2: { rewrite (bind_raised _ _ _ _ _ (lift_run (Raised e) s)). exact Hok. }
  run_with (lift_run (Returned mse) s).
  run_with (print_run (MseLine mse) s).
  set (s2 := mkEnv (frame s) _ _ _ _ _).
  run_with (get_frame_run s2).
  run_with (setitem_run "Linear_Regression_Pred"
              (FloatCol (repeat None (len (frame s2)))) s2).
  set (s3 := with_frame _ s2).
  assert (Hok3 : frame_ok (frame s3)).
  { subst s3. cbn [frame with_frame]. apply frame_ok_set; [exact Hok |].
    cbn [col_len]. apply repeat_length. }
  pose proof (loc_setitem_frame_ok (map fst X_test) "Linear_Regression_Pred"
                y_pred s3 Hok3) as Hloc.
  destruct (loc_setitem (map fst X_test) "Linear_Regression_Pred" y_pred s3)
    as [s4 [[] | e]] eqn:E; cbn [fst] in Hloc.
  - run_with E. exact Hloc.
  - rewrite (bind_raised _ _ _ _ _ E). exact Hloc.
Qed.

(** X15. Every stage keeps the frame rectangular: if every column is as
    long as the index before a stage, the same holds after it, whether the
    stage returns or raises. *)
Theorem stages_keep_frame_rectangular (s : Env) (w : nat)
    (ticker start_date end_date : string) :
  (frame_ok (provider s ticker start_date end_date) ->
   frame_ok (frame (fst (load_data ticker start_date end_date s))))
  /\ (frame_ok (frame s) ->
      frame_ok (frame (fst (moving_average_prediction w s)))
      /\ frame_ok (frame (fst (linear_regression_prediction s)))
      /\ frame_ok (frame (fst (visualize_predictions s)))).
Proof.
  split.
  { intros Hok. rewrite load_data_run. cbn [fst frame with_frame].
    apply frame_ok_set; [exact Hok | reflexivity]. }
  intros Hok. split; [| split].
  - unfold moving_average_prediction.
    destruct (get_column "Close" (frame s)) as [close |] eqn:Hc.
    2: { rewrite (bind_raised _ _ _ _ _ (getitem_none _ _ Hc)). exact Hok. }
    run_with (getitem_some _ _ _ Hc).
    destruct (as_float close) as [xs | e] eqn:Hxs.
    2: { rewrite (bind_raised _ _ _ _ _ (lift_run (Raised e) s)). exact Hok. }
    run_with (lift_run (Returned xs) s).
    run_with (setitem_run "Moving_Avg" (FloatCol (rolling_mean w xs)) s).
    cbn [fst get_frame frame with_frame].
    apply frame_ok_set; [exact Hok |]. cbn [col_len].
    rewrite length_rolling_mean, (as_float_len _ _ Hxs).
    apply (frame_ok_len _ _ _ Hok Hc).
  - unfold linear_regression_prediction, bind.
    destruct (split_records_frame s) as [Hframe _].
    destruct (split_records s) as [s1 [split | e]]; cbn [fst] in Hframe.
    + apply after_split_frame_ok. rewrite Hframe.
      apply frame_ok_set; [exact Hok |]. cbn [col_len]. apply length_arange.
    + cbn [fst]. rewrite Hframe.
      apply frame_ok_set; [exact Hok |]. cbn [col_len]. apply length_arange.
  - assert (Hsame : frame (fst (visualize_predictions s)) = frame s).
    { unfold visualize_predictions.
      apply (preserves_bind (fun d => d = frame s)); [| intros _ | reflexivity].
      { apply preserves_same. reflexivity. }
      repeat first
        [ apply preserves_getitem
        | apply preserves_same; reflexivity
        | apply preserves_bind; [| intros ?] ]. }
    rewrite Hsame. exact Hok.
Qed.

Lemma stages_keep_frame_rectangular_witness :
  frame_ok (frame (fst (moving_average_prediction 5 sample_env)))
  /\ frame_ok (frame (fst (linear_regression_prediction sample_env)))
  /\ frame_ok (frame (fst (visualize_predictions sample_env))).
Proof.
  apply (stages_keep_frame_rectangular sample_env 5 default_ticker default_start_date
           default_end_date).
  unfold frame_ok. simpl. repeat constructor.
Defined.

(** ** Running a stage again *)

Lemma assign_assign (name : string) (c c' : column) (cols : list (string * column)) :
  assign_col name c (assign_col name c' cols) = assign_col name c cols.
Proof.
  induction cols as [| [k c0] rest IH]; simpl.
  - now rewrite String.eqb_refl.
  - destruct (String.eqb k name) eqn:E; simpl; rewrite E; [reflexivity | now rewrite IH].
Qed.


Lemma set_set (name : string) (c c' : column) (d : DataFrame) :
  set_column name c (set_column name c' d) = set_column name c d.
Proof. unfold set_column. cbn [index columns]. now rewrite assign_assign. Qed.


Lemma names_assign_present (name : string) (c c0 : column)
    (cols : list (string * column)) :
  lookup_col name cols = Some c0 ->
  map fst (assign_col name c cols) = map fst cols.
Proof.
  induction cols as [| [k c1] rest IH]; simpl; [discriminate |].
  destruct (String.eqb k name); simpl; [reflexivity |].
  intros H. f_equal. auto.
Qed.

Lemma moving_average_result (w : nat) (s : Env) :
  match get_column "Close" (frame s) with
  | Some close =>
      match as_float close with
      | Returned xs =>
          moving_average_prediction w s
          = (with_frame (set_column "Moving_Avg" (FloatCol (rolling_mean w xs)) (frame s)) s,
             Returned (set_column "Moving_Avg" (FloatCol (rolling_mean w xs)) (frame s)))
      | Raised e => moving_average_prediction w s = (s, Raised e)
      end
  | None => moving_average_prediction w s = (s, Raised (KeyError "Close"))
  end.
Proof.
  unfold moving_average_prediction.
  destruct (get_column "Close" (frame s)) as [close |] eqn:Hc.
  - run_with (getitem_some _ _ _ Hc).
    destruct (as_float close) as [xs | e].
    + run_with (lift_run (Returned xs) s).
      run_with (setitem_run "Moving_Avg" (FloatCol (rolling_mean w xs)) s).
      reflexivity.
    + apply bind_raised. reflexivity.
  - apply bind_raised. apply getitem_none. exact Hc.
Qed.

(** X11. Running the moving-average stage again, with any window, replaces
    the column of the earlier run: the frame is the one the last run alone
    would give, with no second column. *)
Theorem moving_average_rerun (s : Env) (w1 w2 : nat) :
  let first := fst (moving_average_prediction w1 s) in
  fst (moving_average_prediction w2 first) = fst (moving_average_prediction w2 s)
  /\ column_names (frame (fst (moving_average_prediction w2 first)))
     = column_names (frame first).
Proof.
  intros first. subst first.
  pose proof (moving_average_result w1 s) as H1.
  pose proof (moving_average_result w2 s) as H2.
  destruct (get_column "Close" (frame s)) as [close |] eqn:Hc.
  2: { rewrite H1. cbn [fst]. rewrite H2. split; reflexivity. }
  destruct (as_float close) as [xs | e] eqn:Hxs.
  2: { rewrite H1. cbn [fst]. rewrite H2. split; reflexivity. }
  rewrite H1, H2. cbn [fst].
  set (s1 := with_frame _ s).
  pose proof (moving_average_result w2 s1) as H3.
  assert (Hc1 : get_column "Close" (frame s1) = Some close).
  { subst s1. cbn [frame with_frame]. rewrite get_set_other by discriminate. exact Hc. }
  rewrite Hc1, Hxs in H3. rewrite H3. cbn [fst].
  subst s1. unfold with_frame. cbn [frame stdout fs gcf plt_log provider].
  rewrite set_set. split; [reflexivity |].
  unfold column_names, set_column. cbn [columns].
  rewrite <- (assign_assign "Moving_Avg" (FloatCol (rolling_mean w2 xs))
                (FloatCol (rolling_mean w1 xs))).
  apply (names_assign_present _ _ (FloatCol (rolling_mean w1 xs))).
  apply lookup_assign_same.
Qed.






(** ** No look-ahead *)



(** ** The pipeline as a whole *)









(** X18. When the provider answers with fewer than two records (an empty
    result, say), [main] raises [ValueError] in the trend stage: nothing is
    printed, no chart is saved or shown; the frame is left with the Date,
    Moving_Avg and Days columns added. *)
Theorem main_fails_on_short_series (s : Env) (ys : list (option Q)) :
  get_column "Close" (fetched s) = Some (FloatCol ys) ->
  (len (fetched s) < 2)%nat ->
  let s' := fst (main s) in
  snd (main s) = Raised ValueError
  /\ stdout s' = stdout s
  /\ fs s' = fs s
  /\ plt_log s' = plt_log s
  /\ frame s'
     = set_column "Days" (IntCol (arange (len (fetched s))))
         (set_column "Moving_Avg" (FloatCol (rolling_mean default_window ys))
            (set_column "Date" (DateCol (index (fetched s))) (fetched s))).
Proof.
  intros Hclose Hlen s'. subst s'. unfold main.
  run_with (load_data_run s default_ticker default_start_date default_end_date).
  fold (fetched s).
  set (d1 := set_column "Date" (DateCol (index (fetched s))) (fetched s)).
  set (s1 := with_frame d1 s).
  assert (Hc1 : get_column "Close" (frame s1) = Some (FloatCol ys)).
  { subst s1 d1. cbn [frame with_frame]. rewrite get_set_other by discriminate.
    exact Hclose. }
  pose proof (moving_average_result default_window s1) as Hma.
  rewrite Hc1 in Hma. cbn [as_float] in Hma.
  run_with Hma.
  set (d2 := set_column "Moving_Avg" (FloatCol (rolling_mean default_window ys))
               (frame s1)).
  set (s2 := with_frame d2 s1).
  assert (Hc2 : get_column "Close" (frame s2) = Some (FloatCol ys)).
  { subst s2 d2. cbn [frame with_frame]. rewrite get_set_other by discriminate.
    exact Hc1. }
  assert (Hlr : linear_regression_prediction s2
                = (with_frame (set_column "Days" (IntCol (arange (len (frame s2))))
                                 (frame s2)) s2,
                   Raised ValueError)).
  { unfold linear_regression_prediction. apply bind_raised.
    rewrite (split_records_steps s2 ys Hc2). cbv zeta.
    rewrite train_test_split_too_few; [reflexivity |].
    unfold len. rewrite length_day_rows. exact Hlen. }
  rewrite (bind_raised _ _ _ _ _ Hlr). cbn [fst snd].
  repeat split; reflexivity.
Qed.

Lemma main_fails_on_short_series_witness :
  snd (main short_env) = Raised ValueError
  /\ plt_log (fst (main short_env)) = plt_log short_env.
Proof.
  pose proof (main_fails_on_short_series short_env [Some 7%Q]) as H.
  cbv zeta in H.
  destruct H as (Hret & _ & _ & Hlog & _).
  - reflexivity.
  - vm_compute. lia.
  - split; [exact Hret | exact Hlog].
Defined.

(** ** Two records *)

Lemma least_squares_single (x y : Q) :
  coef_ (least_squares [x] [y]) = 0%Q /\ (intercept_ (least_squares [x] [y]) == y)%Q.
Proof.
  unfold least_squares. cbn [coef_ intercept_ map combine].
  set (sxx := Qsum [(x - Qmean [x]) * (x - Qmean [x])]%Q).
  assert (Hsxx : (sxx == 0)%Q).
  { subst sxx. unfold Qmean, Qsum. cbn [fold_right length]. field. }
  apply Qeq_bool_iff in Hsxx. rewrite Hsxx.
  split; [reflexivity |].
  unfold Qmean, Qsum. cbn [fold_right length]. field.
Qed.

(** X14. With exactly two records the training slice is the first record
    alone: the fitted line is flat at the first close, so the forecast for
    the second record is the first close; one error is printed. *)
Theorem two_records_flat_forecast (s : Env) (c0 c1 : Q) :
  price_series (frame s) [c0; c1] ->
  let s' := fst (linear_regression_prediction s) in
  exists p mse,
    get_column "Linear_Regression_Pred" (frame s') = Some (FloatCol [None; Some p])
    /\ (p == c0)%Q
    /\ stdout s' = stdout s ++ [MseLine mse].
Proof.
  intros Hps s'.
  assert (H2 : (2 <= length [c0; c1])%nat) by (simpl; lia).
  assert (Hex : exact_len (length [c0; c1])) by (vm_compute; reflexivity).
  pose proof (linear_regression_run s [c0; c1] Hps H2 Hex) as Hrun. cbv zeta in Hrun.
  assert (Hk : n_train 2 = 1%nat) by (vm_compute; reflexivity).
  destruct (least_squares_single 0 c0) as [Hcoef Hint].
  set (m := least_squares [0%Q] [c0]) in *.
  assert (Hm : trend_model [c0; c1] = m).
  { unfold trend_model. cbn [length]. rewrite Hk. reflexivity. }
  assert (Hfc : trend_forecast [c0; c1] = [predict_at m 1]).
  { unfold trend_forecast. rewrite Hm. cbn [length]. rewrite Hk. reflexivity. }
  assert (Hp : (predict_at m 1 == c0)%Q).
  { unfold predict_at. rewrite Hcoef, Hint. ring. }
  exists (predict_at m 1), (trend_mse [c0; c1]).
  subst s'. rewrite Hrun. cbn [fst frame stdout length]. rewrite Hk, Hfc.
  split; [apply get_set_same |]. split; [exact Hp |]. reflexivity.
Qed.

Lemma two_records_flat_forecast_witness :
  exists p mse,
    get_column "Linear_Regression_Pred"
      (frame (fst (linear_regression_prediction pair_env)))
    = Some (FloatCol [None; Some p])
    /\ (p == 4)%Q
    /\ stdout (fst (linear_regression_prediction pair_env))
       = stdout pair_env ++ [MseLine mse].
Proof.
  apply (two_records_flat_forecast pair_env 4 9).
  series_by_computation.
Defined.

(** ** A window of one record *)

Lemma slice_one (i : nat) (closes : list Q) :
  (i < length closes)%nat -> firstn 1 (skipn i closes) = [nth i closes 0%Q].
Proof.
  revert i. induction closes as [| c closes IH]; intros i Hi; simpl in Hi; [lia |].
  destruct i as [| i]; simpl; [reflexivity |]. apply IH. lia.
Qed.

(** X19. With a window of one record the moving average reproduces the
    closes: no value is missing and each equals the close of its record. *)
Theorem moving_average_window_one (s : Env) (closes : list Q) :
  get_column "Close" (frame s) = Some (FloatCol (map Some closes)) ->
  exists ma,
    get_column "Moving_Avg" (frame (fst (moving_average_prediction 1 s)))
    = Some (FloatCol ma)
    /\ length ma = length closes
    /\ forall i, (i < length closes)%nat ->
         exists m, nth_error ma i = Some (Some m) /\ (m == nth i closes 0)%Q.
Proof.
  intros Hclose.
  pose proof (moving_average_result 1 s) as Hrun.
  rewrite Hclose in Hrun. cbn [as_float] in Hrun.
  exists (rolling_mean 1 (map Some closes)).
  rewrite Hrun. cbn [fst frame with_frame].
  split; [apply get_set_same |].
  split; [rewrite length_rolling_mean; apply length_map |].
  intros i Hi.
  exists (Qmean [nth i closes 0%Q]). split.
  - rewrite nth_error_rolling_mean by (rewrite length_map; exact Hi).
    rewrite roll_mean_full by lia.
    replace (i + 1 - 1)%nat with i by lia.
    rewrite slice_one by exact Hi. reflexivity.
  - unfold Qmean, Qsum. cbn [fold_right length]. field.
Qed.

Lemma moving_average_window_one_witness :
  exists ma,
    get_column "Moving_Avg" (frame (fst (moving_average_prediction 1 sample_env)))
    = Some (FloatCol ma)
    /\ length ma = length sample_closes
    /\ forall i, (i < length sample_closes)%nat ->
         exists m, nth_error ma i = Some (Some m) /\ (m == nth i sample_closes 0)%Q.
Proof.
  apply (moving_average_window_one sample_env sample_closes). reflexivity.
Defined.
